(** * AiResearcherAssistant: knowledge base, paper analyzer and research tracker

    A shallow embedding of [src/knowledge_base.py], [src/paper_analyzer.py]
    and [src/main.py], with the Python built-ins those files call
    ([str.lower], [in] on strings, [str()], [datetime.now()], [strftime],
    [isoformat], [dict]) modelled next to them.

    Modelling conventions.
    - A Python [str] is a Rocq [string] read as a sequence of code points
      below 256 (Latin-1); on that range [str.lower] is a per-character map.
    - A structured value ([content], [paper_info]) is a [pyvalue]: None,
      bool, int, str, list, and dict with string keys.
    - [self.entries] is an insertion-ordered association list, because
      [search] iterates over it; [research_topics] and the files on disk
      are [gmap]s, as nothing iterates over them.
    - [datetime.now()] reads an oracle clock kept in the environment. The
      environment also carries the disk and the [logger.info] records.
    - A method is a state transformer that returns or raises; what it has
      mutated before raising stays mutated. *)

From Stdlib Require Import ZArith Ascii String List Bool Lia DecimalString.
From stdpp Require Import gmap strings list fin_maps.
Import ListNotations.

Local Open Scope string_scope.
Local Open Scope list_scope.

#[local] Arguments String.append !_ _ / : simpl nomatch.

(** ** Python strings *)

Module PyStr.

(** [str.lower] on one code point below 256: A-Z and the Latin-1
    capitals U+00C0-U+00DE (without the multiplication sign U+00D7)
    move up by 32, everything else stays. (Outside this range
    [str.lower] depends on context and can change the length; the
    statements below do not depend on that.) *)
Definition lower_char (c : ascii) : ascii :=
  let n := nat_of_ascii c in
  if (((65 <=? n) && (n <=? 90))
      || ((192 <=? n) && (n <=? 222) && negb (n =? 215)))%nat
  then ascii_of_nat (n + 32) else c.

Fixpoint lower (s : string) : string :=
  match s with
  | EmptyString => EmptyString
  | String c s' => String (lower_char c) (lower s')
  end.

(** [s.startswith(p)] *)
Fixpoint startswith (p s : string) : bool :=
  match p, s with
  | EmptyString, _ => true
  | String _ _, EmptyString => false
  | String a p', String b s' => if Ascii.eqb a b then startswith p' s' else false
  end.

(** [x in s] for two strings: [x] occurs in [s] as a contiguous run. *)
Fixpoint contains (x s : string) : bool :=
  startswith x s ||
  match s with
  | EmptyString => false
  | String _ s' => contains x s'
  end.

(** [sep.join(parts)] *)
Fixpoint join (sep : string) (parts : list string) : string :=
  match parts with
  | [] => EmptyString
  | [p] => p
  | p :: ps => p +:+ sep +:+ join sep ps
  end.

Definition squote : ascii := "039"%char.
Definition dquote : ascii := "034"%char.
Definition backslash : ascii := "092"%char.

Definition hex_digit (n : nat) : ascii :=
  if (n <? 10)%nat then ascii_of_nat (48 + n) else ascii_of_nat (87 + n).

(** [\xhh] with two lowercase hexadecimal digits *)
Definition hex_escape (c : ascii) : string :=
  let n := nat_of_ascii c in
  String backslash (String "x" (String (hex_digit (n / 16))
                               (String (hex_digit (n mod 16)) EmptyString))).

(** [str.isprintable] on one code point below 256 *)
Definition printable (c : ascii) : bool :=
  let n := nat_of_ascii c in
  (((32 <=? n) && (n <? 127)) || ((161 <=? n) && negb (n =? 173)))%nat.

Definition quote_of (s : string) : ascii :=
  if contains (String squote EmptyString) s
     && negb (contains (String dquote EmptyString) s)
  then dquote else squote.

Definition repr_char (q c : ascii) : string :=
  if Ascii.eqb c q || Ascii.eqb c backslash
  then String backslash (String c EmptyString)
  else if Ascii.eqb c "009" then String backslash "t"
  else if Ascii.eqb c "010" then String backslash "n"
  else if Ascii.eqb c "013" then String backslash "r"
  else if printable c then String c EmptyString
  else hex_escape c.

Fixpoint repr_body (q : ascii) (s : string) : string :=
  match s with
  | EmptyString => EmptyString
  | String c s' => repr_char q c +:+ repr_body q s'
  end.

(** [repr(s)] of a string: single quotes unless [s] has a single quote
    and no double quote. *)
Definition repr (s : string) : string :=
  let q := quote_of s in
  String q (repr_body q s +:+ String q EmptyString).

End PyStr.

(** ** Structured values *)

(** What [content] and [paper_info] range over: the values [json.dump]
    accepts (so that it never raises on them), without floats. A [PDict]
    lists its items in insertion order. *)
#[local] Set Warnings "-register-all".
Inductive pyvalue : Type :=
| PNone
| PBool (b : bool)
| PInt (z : Z)
| PStr (s : string)
| PList (items : list pyvalue)
| PDict (items : list (string * pyvalue)).
#[local] Set Warnings "register-all".

Module PyVal.

Definition repr_int (z : Z) : string := NilZero.string_of_int (Z.to_int z).

(** [repr(v)] *)
Fixpoint repr (v : pyvalue) : string :=
  match v with
  | PNone => "None"
  | PBool true => "True"
  | PBool false => "False"
  | PInt z => repr_int z
  | PStr s => PyStr.repr s
  | PList items => "[" +:+ PyStr.join ", " (map repr items) +:+ "]"
  | PDict items =>
      "{" +:+ PyStr.join ", "
                (map (fun kv => PyStr.repr (fst kv) +:+ ": " +:+ repr (snd kv)) items)
          +:+ "}"
  end.

(** [str(v)]: a string is itself, anything else is its [repr]. *)
Definition str (v : pyvalue) : string :=
  match v with
  | PStr s => s
  | _ => repr v
  end.

End PyVal.

(** ** datetime *)

(** A naive [datetime.datetime]: the seven fields the object holds. *)
Record datetime : Type := mkDatetime {
  year : N;
  month : N;
  day : N;
  hour : N;
  minute : N;
  second : N;
  microsecond : N
}.

Module PyTime.

Local Open Scope N_scope.

Definition is_leap (y : N) : bool :=
  (y mod 4 =? 0) && (negb (y mod 100 =? 0) || (y mod 400 =? 0)).

Definition days_in_month (y m : N) : N :=
  if m =? 2 then (if is_leap y then 29 else 28)
  else if (m =? 4) || (m =? 6) || (m =? 9) || (m =? 11) then 30
  else 31.

(** The ranges the [datetime] constructor enforces (MINYEAR = 1,
    MAXYEAR = 9999); every object [datetime.now()] returns passes. *)
Definition valid (t : datetime) : bool :=
  (1 <=? year t) && (year t <=? 9999)
  && (1 <=? month t) && (month t <=? 12)
  && (1 <=? day t) && (day t <=? days_in_month (year t) (month t))
  && (hour t <? 24) && (minute t <? 60) && (second t <? 60)
  && (microsecond t <? 1000000).

Definition lex (c : comparison) (k : comparison) : comparison :=
  match c with Eq => k | _ => c end.

(** Comparison of two naive datetimes: field by field, most
    significant first. *)
Definition compare (a b : datetime) : comparison :=
  lex (year a ?= year b)
 (lex (month a ?= month b)
 (lex (day a ?= day b)
 (lex (hour a ?= hour b)
 (lex (minute a ?= minute b)
 (lex (second a ?= second b)
      (microsecond a ?= microsecond b)))))).

(** [a <= b] on datetimes *)
Definition leb (a b : datetime) : bool :=
  match compare a b with Gt => false | _ => true end.

Definition digit (n : N) : ascii := ascii_of_N (48 + n mod 10).

(** [n] in decimal, zero-filled to [k] digits (the [%02d], [%04d] and
    [%06d] of the formats below; a valid field never exceeds its width). *)
Fixpoint digits (k : nat) (n : N) : string :=
  match k with
  | O => EmptyString
  | S k' => digits k' (n / 10) +:+ String (digit n) EmptyString
  end.

(** One [strftime] directive. *)
Definition directive (c : ascii) (t : datetime) : string :=
  if Ascii.eqb c "Y" then digits 4 (year t)
  else if Ascii.eqb c "m" then digits 2 (month t)
  else if Ascii.eqb c "d" then digits 2 (day t)
  else if Ascii.eqb c "H" then digits 2 (hour t)
  else if Ascii.eqb c "M" then digits 2 (minute t)
  else if Ascii.eqb c "S" then digits 2 (second t)
  else if Ascii.eqb c "f" then digits 6 (microsecond t)
  else if Ascii.eqb c "%" then "%"%string
  else String "%" (String c EmptyString).

(** [t.strftime(fmt)] for the numeric directives above. *)
Fixpoint strftime (fmt : string) (t : datetime) : string :=
  match fmt with
  | EmptyString => EmptyString
  | String "%" (String c rest) => directive c t +:+ strftime rest t
  | String c rest => String c (strftime rest t)
  end.

(** [HH:MM:SS[.ffffff]]: the fraction is left out when it is zero. *)
Definition isotime (t : datetime) : string :=
  digits 2 (hour t) +:+ ":" +:+ digits 2 (minute t) +:+ ":" +:+ digits 2 (second t)
  +:+ (if microsecond t =? 0 then EmptyString
       else "." +:+ digits 6 (microsecond t)).

Definition isodate (t : datetime) : string :=
  digits 4 (year t) +:+ "-" +:+ digits 2 (month t) +:+ "-" +:+ digits 2 (day t).

(** [t.isoformat(sep)] *)
Definition isoformat_sep (sep : ascii) (t : datetime) : string :=
  isodate t +:+ String sep (isotime t).

Definition isoformat (t : datetime) : string := isoformat_sep "T" t.

(** [str(t)] *)
Definition str (t : datetime) : string := isoformat_sep " " t.

End PyTime.

(** ** Insertion-ordered dict *)

(** A Python [dict] with string keys, as the list of its items in
    insertion order; the operations keep the keys distinct. *)
Module PyDict.
Section Dict.
Context {V : Type}.

(** [d.get(k)] *)
Fixpoint get (k : string) (d : list (string * V)) : option V :=
  match d with
  | [] => None
  | (k', v) :: d' => if String.eqb k k' then Some v else get k d'
  end.

(** [k in d] *)
Definition mem (k : string) (d : list (string * V)) : bool :=
  match get k d with Some _ => true | None => false end.

(** [d[k] = v]: an existing key keeps its place, a new key goes last. *)
Fixpoint set (k : string) (v : V) (d : list (string * V)) : list (string * V) :=
  match d with
  | [] => [(k, v)]
  | (k', v') :: d' =>
      if String.eqb k k' then (k, v) :: d' else (k', v') :: set k v d'
  end.

Definition keys (d : list (string * V)) : list string := map fst d.

End Dict.
End PyDict.

(** ** Environment and effects *)

Inductive exn : Type :=
| ValueError (msg : string)
| KeyError (key : string)
| OSError (path : string)
| JSONDecodeError.

Inductive outcome (A : Type) : Type :=
| Return (a : A)
| Raise (e : exn).
Arguments Return {A} a.
Arguments Raise {A} e.

(** What a file holds: nothing yet (opened for writing, nothing written),
    or the JSON document that was dumped into it, kept as the value it
    denotes. The text of the document is not modelled, and nothing below
    is a statement about [json.load] undoing [json.dump]. *)
Inductive filedata : Type :=
| Truncated
| Json (doc : pyvalue).

(** The world outside the objects.
    - [clock i] is what the [i]-th call of [datetime.now()] returns, and
      [ticks] counts the calls made so far;
    - [files] maps a path to the file there, and [writable path] tells
      whether [open(path, 'w')] succeeds there (the directory exists, the
      name is legal, the process may write); it is fixed for the run.
      Paths are compared as strings: two spellings of one file are not
      identified, so nothing below argues from two paths being different;
    - [log] holds the messages given to [logger.info], oldest first. *)
Record Env : Type := mkEnv {
  clock : nat -> datetime;
  ticks : nat;
  files : gmap string filedata;
  writable : string -> bool;
  log : list string
}.

Record World (Obj : Type) : Type := mkWorld {
  self : Obj;
  env : Env
}.
Arguments mkWorld {Obj} self env.
Arguments self {Obj} w.
Arguments env {Obj} w.

(** A method body: runs in a world, returns or raises, and leaves a world. *)
Definition M (Obj A : Type) : Type := World Obj -> outcome A * World Obj.

Section Monad.
Context {Obj : Type}.

Definition ret {A} (a : A) : M Obj A := fun w => (Return a, w).

Definition bind {A B} (m : M Obj A) (k : A -> M Obj B) : M Obj B :=
  fun w =>
    match m w with
    | (Return a, w') => k a w'
    | (Raise e, w') => (Raise e, w')
    end.

Definition raise {A} (e : exn) : M Obj A := fun w => (Raise e, w).

Definition get_self : M Obj Obj := fun w => (Return (self w), w).

Definition set_self (o : Obj) : M Obj unit :=
  fun w => (Return tt, mkWorld o (env w)).

Definition get_env : M Obj Env := fun w => (Return (env w), w).

Definition set_env (e : Env) : M Obj unit :=
  fun w => (Return tt, mkWorld (self w) e).

End Monad.

Notation "x <- m ;; k" := (bind m (fun x => k))
  (at level 100, m at next level, right associativity).
Notation "m ;;; k" := (bind m (fun _ => k))
  (at level 100, right associativity).

(** What a failing [open(path, 'w')] raises: [ValueError] for a path
    with a NUL character, which never reaches the file system, and an
    [OSError] (missing directory, no permission, ...) otherwise. *)
Definition open_error (path : string) : exn :=
  if PyStr.contains (String "000" EmptyString) path
  then ValueError "embedded null byte"
  else OSError path.

Section Effects.
Context {Obj : Type}.

(** [datetime.now()] *)
Definition now : M Obj datetime :=
  e <- get_env ;;
  set_env (mkEnv (clock e) (S (ticks e)) (files e) (writable e) (log e)) ;;;
  ret (clock e (ticks e)).

(** [logger.info(msg)] *)
Definition logger_info (msg : string) : M Obj unit :=
  e <- get_env ;;
  set_env (mkEnv (clock e) (ticks e) (files e) (writable e) (log e ++ [msg])).

(** [open(path, 'w')]: raises when the path cannot be opened for
    writing, otherwise creates or empties the file. *)
Definition open_w (path : string) : M Obj unit :=
  e <- get_env ;;
  if writable e path
  then set_env (mkEnv (clock e) (ticks e) (<[path := Truncated]> (files e))
                      (writable e) (log e))
  else raise (open_error path).

(** [json.dump(doc, f)] on a file opened by [open_w] *)
Definition json_dump (doc : pyvalue) (path : string) : M Obj unit :=
  e <- get_env ;;
  set_env (mkEnv (clock e) (ticks e) (<[path := Json doc]> (files e))
                 (writable e) (log e)).

End Effects.

(** [s.endswith(c)] for one character *)
Fixpoint ends_with (c : ascii) (s : string) : bool :=
  match s with
  | EmptyString => false
  | String a EmptyString => Ascii.eqb a c
  | String _ s' => ends_with c s'
  end.

(** [os.path.join(a, b)] on POSIX *)
Definition path_join (a b : string) : string :=
  if PyStr.startswith "/" b then b
  else if String.eqb a EmptyString || ends_with "/" a then a +:+ b
  else a +:+ "/" +:+ b.

(** ** knowledge_base.py *)

(** The dict [add_entry] builds for one entry; its four keys are fixed. *)
Module Entry.
Record t : Type := mk {
  topic : string;
  content : pyvalue;
  created_at : string;
  last_modified : string
}.

(** The same entry as the dict [json.dump] receives. *)
Definition to_value (e : t) : pyvalue :=
  PDict [("topic", PStr (topic e)); ("content", content e);
         ("created_at", PStr (created_at e));
         ("last_modified", PStr (last_modified e))].
End Entry.

(** The dict [{"id": entry_id, **entry}] that [search] appends. *)
Module SearchResult.
Record t : Type := mk {
  id : string;
  topic : string;
  content : pyvalue;
  created_at : string;
  last_modified : string
}.

Definition of_entry (entry_id : string) (e : Entry.t) : t :=
  mk entry_id (Entry.topic e) (Entry.content e)
     (Entry.created_at e) (Entry.last_modified e).
End SearchResult.

Module KnowledgeBase.

Record t : Type := mk {
  storage_path : string;
  entries : list (string * Entry.t)
}.

Definition default_storage_path : string := "../data/knowledge_base".

(** [self.entries[entry_id]] *)
Definition getitem (entry_id : string) : M t Entry.t :=
  kb <- get_self ;;
  match PyDict.get entry_id (entries kb) with
  | Some e => ret e
  | None => raise (KeyError entry_id)
  end.

(** [self.entries[entry_id] = e] *)
Definition setitem (entry_id : string) (e : Entry.t) : M t unit :=
  kb <- get_self ;;
  set_self (mk (storage_path kb) (PyDict.set entry_id e (entries kb))).

(** [os.makedirs] only touches directories, which [Env] does not track;
    the cases where it raises (and no object is constructed) are outside
    the model. *)
Definition _ensure_storage_exists : M t unit := ret tt.

Definition _save_entry (entry_id : string) : M t unit :=
  kb <- get_self ;;
  let file_path := path_join (storage_path kb) (entry_id +:+ ".json") in
  open_w file_path ;;;
  e <- getitem entry_id ;;
  json_dump (Entry.to_value e) file_path.

Definition _load_entry (entry_id : string) : M t (option pyvalue) :=
  kb <- get_self ;;
  let file_path := path_join (storage_path kb) (entry_id +:+ ".json") in
  e <- get_env ;;
  match files e !! file_path with
  | None => ret None
  | Some (Json doc) => ret (Some doc)
  | Some Truncated => raise JSONDecodeError
  end.

Definition init (path : string) : M t unit :=
  set_self (mk path []) ;;;
  _ensure_storage_exists ;;;
  logger_info "Knowledge Base initialized".

(** [KnowledgeBase(path)] in environment [e] *)
Definition new (path : string) (e : Env) : World t :=
  snd (init path (mkWorld (mk EmptyString []) e)).

Definition add_entry (topic : string) (content : pyvalue) : M t string :=
  t_id <- now ;;
  let entry_id := topic +:+ "_" +:+ PyTime.strftime "%Y%m%d_%H%M%S" t_id in
  t_created <- now ;;
  t_modified <- now ;;
  setitem entry_id (Entry.mk topic content
                             (PyTime.isoformat t_created)
                             (PyTime.isoformat t_modified)) ;;;
  _save_entry entry_id ;;;
  logger_info ("Added new knowledge base entry: " +:+ entry_id) ;;;
  ret entry_id.

Definition get_entry (entry_id : string) : M t (option Entry.t) :=
  kb <- get_self ;;
  ret (PyDict.get entry_id (entries kb)).

Definition update_entry (entry_id : string) (content : pyvalue) : M t bool :=
  kb <- get_self ;;
  if negb (PyDict.mem entry_id (entries kb)) then ret false
  else
    e <- getitem entry_id ;;
    setitem entry_id (Entry.mk (Entry.topic e) content
                               (Entry.created_at e) (Entry.last_modified e)) ;;;
    t_modified <- now ;;
    e' <- getitem entry_id ;;
    setitem entry_id (Entry.mk (Entry.topic e') (Entry.content e')
                               (Entry.created_at e')
                               (PyTime.isoformat t_modified)) ;;;
    _save_entry entry_id ;;;
    logger_info ("Updated knowledge base entry: " +:+ entry_id) ;;;
    ret true.

(** [query.lower() in str(entry["content"]).lower()] *)
Definition matches (query : string) (entry : Entry.t) : bool :=
  PyStr.contains (PyStr.lower query)
                 (PyStr.lower (PyVal.str (Entry.content entry))).

(** The [for] loop of [search], with [results] as it stands so far. *)
Fixpoint search_loop (query : string) (items : list (string * Entry.t))
         (results : list SearchResult.t) : list SearchResult.t :=
  match items with
  | [] => results
  | (entry_id, entry) :: rest =>
      if matches query entry
      then search_loop query rest (results ++ [SearchResult.of_entry entry_id entry])
      else search_loop query rest results
  end.

Definition search (query : string) : M t (list SearchResult.t) :=
  kb <- get_self ;;
  ret (search_loop query (entries kb) []).

End KnowledgeBase.

(** ** paper_analyzer.py *)

Module PaperAnalyzer.

Record t : Type := mk {
  analyzed_papers : gmap string pyvalue
}.

(** The dict [analyze_paper] returns. *)
Record Analysis : Type := mkAnalysis {
  timestamp : datetime;
  key_findings : list pyvalue;
  methodology : string;
  conclusions : string;
  citations : list pyvalue;
  topics : list pyvalue
}.

Definition init : M t unit :=
  set_self (mk ∅) ;;;
  logger_info "Paper Analyzer initialized".

Definition analyze_paper (paper_content : string) : M t Analysis :=
  ts <- now ;;
  let analysis := mkAnalysis ts [] EmptyString EmptyString [] [] in
  logger_info "Paper analysis completed" ;;;
  ret analysis.

Definition extract_citations (paper_content : string) : M t (list pyvalue) :=
  let citations : list pyvalue := [] in
  logger_info ("Extracted " +:+ PyVal.repr_int (Z.of_nat (length citations))
               +:+ " citations") ;;;
  ret citations.

Definition summarize_paper (paper_content : string) (max_length : option Z)
  : M t string :=
  let summary := EmptyString in
  logger_info "Paper summary generated" ;;;
  ret summary.

Definition identify_key_concepts (paper_content : string) : M t (list string) :=
  let concepts : list string := [] in
  logger_info ("Identified " +:+ PyVal.repr_int (Z.of_nat (length concepts))
               +:+ " key concepts") ;;;
  ret concepts.

End PaperAnalyzer.

(** ** main.py *)

Module AIResearcher.

(** A value in a paper record: one taken over from [paper_info], or the
    [datetime] stored under ["added_at"]. *)
Inductive field : Type :=
| Info (v : pyvalue)
| Stamp (ts : datetime).

(** The dict [{**paper_info, "added_at": datetime.now()}] *)
Definition Paper : Type := list (string * field).

Record Note : Type := mkNote {
  content : string;
  note_created_at : datetime
}.

Record Topic : Type := mkTopic {
  description : string;
  created_at : datetime;
  papers : list Paper;
  notes : list Note
}.

Record t : Type := mk {
  start_time : datetime;
  research_topics : gmap string Topic;
  knowledge_base : gmap string (list pyvalue)
}.

Definition set_topic (name : string) (tp : Topic) : M t unit :=
  r <- get_self ;;
  set_self (mk (start_time r) (<[name := tp]> (research_topics r))
               (knowledge_base r)).

(** [self.research_topics[topic]] *)
Definition getitem (name : string) : M t Topic :=
  r <- get_self ;;
  match research_topics r !! name with
  | Some tp => ret tp
  | None => raise (KeyError name)
  end.

Definition init : M t unit :=
  ts <- now ;;
  set_self (mk ts ∅ ∅) ;;;
  logger_info ("AI Researcher initialized at " +:+ PyTime.str ts).

Definition add_research_topic (topic description : string) : M t unit :=
  ts <- now ;;
  set_topic topic (mkTopic description ts [] []) ;;;
  logger_info ("Added new research topic: " +:+ topic).

Definition not_found (topic : string) : exn :=
  ValueError ("Topic " +:+ topic +:+ " not found").

Definition make_paper (paper_info : list (string * pyvalue)) (ts : datetime) : Paper :=
  PyDict.set "added_at" (Stamp ts)
             (map (fun kv => (fst kv, Info (snd kv))) paper_info).

Definition add_paper (topic : string) (paper_info : list (string * pyvalue))
  : M t unit :=
  r <- get_self ;;
  if negb (bool_decide (is_Some (research_topics r !! topic)))
  then raise (not_found topic)
  else
    tp <- getitem topic ;;
    ts <- now ;;
    set_topic topic (mkTopic (description tp) (created_at tp)
                             (papers tp ++ [make_paper paper_info ts])
                             (notes tp)) ;;;
    logger_info ("Added new paper to topic " +:+ topic).

Definition add_note (topic : string) (note : string) : M t unit :=
  r <- get_self ;;
  if negb (bool_decide (is_Some (research_topics r !! topic)))
  then raise (not_found topic)
  else
    tp <- getitem topic ;;
    ts <- now ;;
    set_topic topic (mkTopic (description tp) (created_at tp)
                             (papers tp)
                             (notes tp ++ [mkNote note ts])) ;;;
    logger_info ("Added new note to topic " +:+ topic).

(** [main()] *)
Definition main : M t unit :=
  init ;;;
  add_research_topic
    "AI Ethics"
    "Research on ethical considerations in AI development and deployment" ;;;
  logger_info "AI Researcher application started successfully".

End AIResearcher.

(** ** Clocks, call sequences and sample worlds *)

(** The clock never steps back from one reading to the next. *)
Definition nondecreasing (c : nat -> datetime) : Prop :=
  forall i j, i <= j -> PyTime.leb (c i) (c j) = true.

(** Every reading is a well-formed [datetime]. *)
Definition all_valid (c : nat -> datetime) : Prop :=
  forall i, PyTime.valid (c i) = true.

(** A clock that gives the readings of [l] in turn and [final] from then on. *)
Definition clock_of (l : list datetime) (final : datetime) : nat -> datetime :=
  fun i => nth i l final.

(** A decidable check that the readings of [clock_of l final] never
    step back: each one is at most every later one. *)
Fixpoint readings_sorted (l : list datetime) (final : datetime) : bool :=
  match l with
  | [] => true
  | a :: l' => forallb (PyTime.leb a) l' && PyTime.leb a final && readings_sorted l' final
  end.

(** Two readings fall in the same wall-clock second. *)
Definition same_second (a b : datetime) : bool :=
  ((year a =? year b) && (month a =? month b) && (day a =? day b)
   && (hour a =? hour b) && (minute a =? minute b) && (second a =? second b))%N.

(** The file [_save_entry] writes for an entry ID. *)
Definition entry_path (kb : KnowledgeBase.t) (entry_id : string) : string :=
  path_join (KnowledgeBase.storage_path kb) (entry_id +:+ ".json").

(** The ID [add_entry] forms from a topic and a clock reading. *)
Definition entry_id_of (topic : string) (ts : datetime) : string :=
  topic +:+ "_" +:+ PyTime.digits 4 (year ts) +:+ PyTime.digits 2 (month ts)
        +:+ PyTime.digits 2 (day ts) +:+ "_" +:+ PyTime.digits 2 (hour ts)
        +:+ PyTime.digits 2 (minute ts) +:+ PyTime.digits 2 (second ts).

(** What [add_entry topic content] run in world [w] works with: the ID
    from the first clock reading, the entry stamped with the second and
    the third, and the store once the entry is assigned. *)
Definition added_id (topic : string) (w : World KnowledgeBase.t) : string :=
  entry_id_of topic (clock (env w) (ticks (env w))).

Definition added_entry (topic : string) (content : pyvalue)
           (w : World KnowledgeBase.t) : Entry.t :=
  Entry.mk topic content
           (PyTime.isoformat (clock (env w) (1 + ticks (env w))))
           (PyTime.isoformat (clock (env w) (2 + ticks (env w)))).

Definition added_store (topic : string) (content : pyvalue)
           (w : World KnowledgeBase.t) : KnowledgeBase.t :=
  KnowledgeBase.mk (KnowledgeBase.storage_path (self w))
                   (PyDict.set (added_id topic w) (added_entry topic content w)
                               (KnowledgeBase.entries (self w))).

(** What a successful [update_entry] run in world [w] makes of entry [e]:
    new content, and the next clock reading as [last_modified]. *)
Definition updated_entry (e : Entry.t) (content : pyvalue)
           (w : World KnowledgeBase.t) : Entry.t :=
  Entry.mk (Entry.topic e) content (Entry.created_at e)
           (PyTime.isoformat (clock (env w) (ticks (env w)))).

Definition updated_store (entry_id : string) (e : Entry.t) (content : pyvalue)
           (w : World KnowledgeBase.t) : KnowledgeBase.t :=
  KnowledgeBase.mk (KnowledgeBase.storage_path (self w))
                   (PyDict.set entry_id (updated_entry e content w)
                               (KnowledgeBase.entries (self w))).

(** One call of the public interface of [KnowledgeBase]. *)
Inductive call : Type :=
| AddEntry (topic : string) (content : pyvalue)
| GetEntry (entry_id : string)
| UpdateEntry (entry_id : string) (content : pyvalue)
| Search (query : string).

(** The world a call leaves, whether it returned or raised. *)
Definition run_call (c : call) (w : World KnowledgeBase.t) : World KnowledgeBase.t :=
  match c with
  | AddEntry topic content => snd (KnowledgeBase.add_entry topic content w)
  | GetEntry entry_id => snd (KnowledgeBase.get_entry entry_id w)
  | UpdateEntry entry_id content => snd (KnowledgeBase.update_entry entry_id content w)
  | Search query => snd (KnowledgeBase.search query w)
  end.

Definition run_calls (cs : list call) (w : World KnowledgeBase.t) : World KnowledgeBase.t :=
  fold_left (fun w c => run_call c w) cs w.

(** The property of a store the specification calls its invariant. *)
Definition stamps_ordered (w : World KnowledgeBase.t) : Prop :=
  forall entry_id e,
    PyDict.get entry_id (KnowledgeBase.entries (self w)) = Some e ->
    String.leb (Entry.created_at e) (Entry.last_modified e) = true.

(** What the calls maintain: every stamp in the store is the ISO form of
    a reading already taken from clock [c], the creation one first. *)
Definition stamped (c : nat -> datetime) (w : World KnowledgeBase.t) : Prop :=
  clock (env w) = c /\
  forall entry_id e,
    PyDict.get entry_id (KnowledgeBase.entries (self w)) = Some e ->
    exists i j, i <= j /\ j < ticks (env w)
                /\ Entry.created_at e = PyTime.isoformat (c i)
                /\ Entry.last_modified e = PyTime.isoformat (c j).

Module Sample.

Definition noon (us : N) : datetime := mkDatetime 2024 1 1 12 0 0 us.

(** Readings one microsecond apart, then a standstill. *)
Definition ticking : nat -> datetime :=
  clock_of [noon 1; noon 2; noon 3; noon 4; noon 5; noon 6] (noon 7).

(** A clock too coarse to tell successive readings apart. *)
Definition frozen : nat -> datetime := clock_of [] (noon 0).

(** Local time around the end of daylight saving: three readings just
    before 02:00, the next ones after the hour has been set back. *)
Definition fall_back : nat -> datetime :=
  clock_of [mkDatetime 2024 11 3 1 59 58 0; mkDatetime 2024 11 3 1 59 58 10;
            mkDatetime 2024 11 3 1 59 58 20]
           (mkDatetime 2024 11 3 1 0 5 0).

Definition env_with (c : nat -> datetime) (ok : string -> bool) : Env :=
  mkEnv c 0 ∅ ok [].

Definition any_path (_ : string) : bool := true.

(** A storage directory [data] without subdirectories: a file can be
    opened for writing only directly inside it. *)
Definition flat_dir (path : string) : bool :=
  PyStr.startswith "data/" path
  && negb (PyStr.contains "/" (String.substring 5 (String.length path - 5) path)).

Definition fresh (c : nat -> datetime) : World KnowledgeBase.t :=
  KnowledgeBase.new "data" (env_with c any_path).

Definition ethics : pyvalue := PStr "Research on ethics in AI".
Definition descent : pyvalue := PStr "Gradient descent".

Definition tracker (c : nat -> datetime) : World AIResearcher.t :=
  snd (AIResearcher.main (mkWorld (AIResearcher.mk (noon 0) ∅ ∅) (env_with c any_path))).

Definition analyzer (c : nat -> datetime) : World PaperAnalyzer.t :=
  snd (PaperAnalyzer.init (mkWorld (PaperAnalyzer.mk ∅) (env_with c any_path))).

End Sample.

(** ** Further notions *)

(** The part of an entry ID that follows the topic: an underscore and
    the fifteen characters of [%Y%m%d_%H%M%S]. *)
Definition stamp_of (ts : datetime) : string :=
  "_" +:+ PyTime.digits 4 (year ts) +:+ PyTime.digits 2 (month ts)
      +:+ PyTime.digits 2 (day ts) +:+ "_" +:+ PyTime.digits 2 (hour ts)
      +:+ PyTime.digits 2 (minute ts) +:+ PyTime.digits 2 (second ts).

(** Every key of the store is the topic of its entry followed by a stamp. *)
Definition keyed (w : World KnowledgeBase.t) : Prop :=
  forall entry_id e,
    PyDict.get entry_id (KnowledgeBase.entries (self w)) = Some e ->
    exists ts, entry_id = Entry.topic e +:+ stamp_of ts.

(** One call of the public interface of [AIResearcher]. *)
Inductive tracker_call : Type :=
| AddTopic (topic description : string)
| AddPaper (topic : string) (paper_info : list (string * pyvalue))
| AddNote (topic note : string).

Definition run_tracker_call (c : tracker_call) (w : World AIResearcher.t)
  : outcome unit * World AIResearcher.t :=
  match c with
  | AddTopic topic description => AIResearcher.add_research_topic topic description w
  | AddPaper topic paper_info => AIResearcher.add_paper topic paper_info w
  | AddNote topic note => AIResearcher.add_note topic note w
  end.

(** The world a sequence of tracker calls leaves; a call that raises is
    caught and the next one goes on. *)
Definition run_tracker_calls (cs : list tracker_call) (w : World AIResearcher.t)
  : World AIResearcher.t :=
  fold_left (fun w c => snd (run_tracker_call c w)) cs w.

(** * Facts about the built-ins *)

Example repr_samples :
  PyVal.repr (PDict [("k", PList [PInt 0; PInt (-5); PBool true; PNone]);
                     ("it's", PStr "a\b'c")])
  = "{'k': [0, -5, True, None], " +:+ String PyStr.dquote "it's"
    +:+ String PyStr.dquote ": " +:+ String PyStr.dquote "a\\b'c"
    +:+ String PyStr.dquote "}".
Proof. vm_compute. reflexivity. Qed.

Example strftime_sample :
  PyTime.strftime "%Y%m%d_%H%M%S" (mkDatetime 2024 3 9 7 5 0 120) = "20240309_070500".
Proof. reflexivity. Qed.

Example isoformat_sample :
  PyTime.isoformat (mkDatetime 2024 3 9 7 5 0 120) = "2024-03-09T07:05:00.000120"
  /\ PyTime.isoformat (mkDatetime 2024 3 9 7 5 0 0) = "2024-03-09T07:05:00".
Proof. split; reflexivity. Qed.

Section StringFacts.


Lemma append_assoc (a b c : string) : (a +:+ b) +:+ c = a +:+ (b +:+ c).
Proof. induction a as [|x a IH]; simpl; [reflexivity | now rewrite IH]. Qed.

Lemma startswith_iff (p s : string) :
  PyStr.startswith p s = true <-> exists tail, s = p +:+ tail.
Proof.
  revert s; induction p as [|a p IH]; intros s; simpl.
  - split; [intros _; now exists s | reflexivity].
  - destruct s as [|b s].
    + split; [discriminate | intros [tl H]; discriminate].
    + destruct (Ascii.eqb_spec a b) as [->|Hne].
      * rewrite IH. split; intros [tl H]; exists tl; simpl in *; congruence.
      * split; [discriminate | intros [tl H]; simpl in H; congruence].
Qed.

(** [contains x s] holds exactly when [x] is a substring of [s]. *)
Lemma contains_iff (x s : string) :
  PyStr.contains x s = true <-> exists before after, s = before +:+ x +:+ after.
Proof.
  induction s as [|c s IH].
  - simpl. rewrite orb_false_r, startswith_iff. split.
    + intros [tl H]. exists EmptyString, tl. exact H.
    + intros [b [a H]]. destruct b; simpl in H; [now exists a | discriminate].
  - cbn [PyStr.contains]. rewrite orb_true_iff, startswith_iff, IH. split.
    + intros [[tl H] | [b [a H]]].
      * exists EmptyString, tl. exact H.
      * exists (String c b), a. simpl. now rewrite H.
    + intros [b [a H]]. destruct b as [|c' b]; simpl in H.
      * left. now exists a.
      * right. exists b, a. congruence.
Qed.

Lemma contains_empty (s : string) : PyStr.contains EmptyString s = true.
Proof. destruct s; reflexivity. Qed.


End StringFacts.

Section DictFacts.
Context {V : Type}.
Implicit Types (d : list (string * V)) (k : string) (v : V).

Lemma get_set_eq k v d : PyDict.get k (PyDict.set k v d) = Some v.
Proof.
  induction d as [|[k' v'] d IH]; simpl.
  - now rewrite String.eqb_refl.
  - destruct (String.eqb k k') eqn:E; simpl.
    + now rewrite String.eqb_refl.
    + now rewrite E.
Qed.

Lemma get_set_ne k k' v d :
  k <> k' -> PyDict.get k' (PyDict.set k v d) = PyDict.get k' d.
Proof.
  intros Hne. induction d as [|[k0 v0] d IH]; simpl.
  - destruct (String.eqb_spec k' k); [congruence | reflexivity].
  - destruct (String.eqb_spec k k0) as [->|Hk]; simpl.
    + destruct (String.eqb_spec k' k0); [congruence | reflexivity].
    + now rewrite IH.
Qed.

Lemma set_set k v v' d : PyDict.set k v' (PyDict.set k v d) = PyDict.set k v' d.
Proof.
  induction d as [|[k0 v0] d IH]; simpl.
  - now rewrite String.eqb_refl.
  - destruct (String.eqb k k0) eqn:E; simpl.
    + now rewrite String.eqb_refl.
    + now rewrite E, IH.
Qed.

Lemma mem_get k d : PyDict.mem k d = true <-> exists v, PyDict.get k d = Some v.
Proof.
  unfold PyDict.mem. destruct (PyDict.get k d) as [v|].
  - split; [now exists v | reflexivity].
  - split; [discriminate | intros [v H]; discriminate].
Qed.

(** Assigning to a key the dict already has keeps every key in place. *)
Lemma keys_set_present k v d :
  PyDict.mem k d = true -> PyDict.keys (PyDict.set k v d) = PyDict.keys d.
Proof.
  unfold PyDict.mem, PyDict.keys. induction d as [|[k0 v0] d IH]; simpl.
  - discriminate.
  - destruct (String.eqb_spec k k0) as [->|Hk]; simpl; intros H.
    + reflexivity.
    + now rewrite IH.
Qed.

(** Assigning to a new key puts it last. *)
Lemma keys_set_absent k v d :
  PyDict.mem k d = false -> PyDict.keys (PyDict.set k v d) = PyDict.keys d ++ [k].
Proof.
  unfold PyDict.mem, PyDict.keys. induction d as [|[k0 v0] d IH]; simpl.
  - reflexivity.
  - destruct (String.eqb_spec k k0) as [->|Hk]; simpl; intros H.
    + discriminate.
    + now rewrite IH.
Qed.

Lemma set_keeps_distinct k v d :
  NoDup (PyDict.keys d) -> NoDup (PyDict.keys (PyDict.set k v d)).
Proof.
  intros Hd. destruct (PyDict.mem k d) eqn:E.
  - now rewrite keys_set_present.
  - rewrite keys_set_absent by exact E.
    apply NoDup_app. split; [exact Hd|]. split; [|apply NoDup_singleton].
    intros x Hx Hin. apply list_elem_of_singleton in Hin. subst x.
    unfold PyDict.mem in E. revert Hx E. clear Hd. unfold PyDict.keys.
    induction d as [|[k0 v0] d IH]; simpl.
    + intros H. inversion H.
    + intros H. apply elem_of_cons in H.
      destruct (String.eqb_spec k k0) as [->|Hk]; [discriminate|].
      destruct H as [H|H]; [congruence | now apply IH].
Qed.

End DictFacts.

Section TimeFacts.

Lemma ascii_compare_refl (c : ascii) : Ascii.compare c c = Eq.
Proof. unfold Ascii.compare. apply N.compare_refl. Qed.


(** Comparing two strings that start with runs of the same length:
    the first runs decide, the rests break a tie. *)
Lemma compare_app (a b x y : string) :
  String.length a = String.length b ->
  String.compare (a +:+ x) (b +:+ y)
  = PyTime.lex (String.compare a b) (String.compare x y).
Proof.
  revert b; induction a as [|c a IH]; intros [|d b] Hlen; simpl in *;
    try discriminate; [reflexivity|].
  destruct (Ascii.compare c d); simpl; [|reflexivity..].
  apply IH. congruence.
Qed.

Lemma length_app_string (a b : string) :
  String.length (a +:+ b) = String.length a + String.length b.
Proof. induction a as [|c a IH]; simpl; [reflexivity | now rewrite IH]. Qed.

Lemma digits_length (k : nat) (n : N) : String.length (PyTime.digits k n) = k.
Proof.
  revert n; induction k as [|k IH]; intros n; simpl; [reflexivity|].
  rewrite length_app_string, IH. simpl. lia.
Qed.

Lemma N_add_compare (p n m : N) : (p + n ?= p + m)%N = (n ?= m)%N.
Proof.
  destruct (N.compare_spec n m) as [E|L|G].
  - subst. apply N.compare_refl.
  - apply N.compare_lt_iff. lia.
  - apply N.compare_gt_iff. lia.
Qed.

Lemma digit_compare (n m : N) :
  Ascii.compare (PyTime.digit n) (PyTime.digit m) = (n mod 10 ?= m mod 10)%N.
Proof.
  unfold Ascii.compare, PyTime.digit.
  assert (Hn : (n mod 10 < 10)%N) by (apply N.mod_lt; discriminate).
  assert (Hm : (m mod 10 < 10)%N) by (apply N.mod_lt; discriminate).
  rewrite !N_ascii_embedding by lia.
  apply N_add_compare.
Qed.

Lemma decimal_compare (n m : N) :
  PyTime.lex (n / 10 ?= m / 10)%N (n mod 10 ?= m mod 10)%N = (n ?= m)%N.
Proof.
  pose proof (N.div_mod n 10 ltac:(discriminate)) as Hn.
  pose proof (N.div_mod m 10 ltac:(discriminate)) as Hm.
  pose proof (N.mod_lt n 10 ltac:(discriminate)) as Hn'.
  pose proof (N.mod_lt m 10 ltac:(discriminate)) as Hm'.
  symmetry.
  revert Hn Hm Hn' Hm'.
  generalize (n / 10)%N (m / 10)%N (n mod 10)%N (m mod 10)%N.
  intros qn qm rn rm -> -> Hn' Hm'.
  destruct (N.compare_spec qn qm) as [E|L|G]; simpl.
  - subst. apply N_add_compare.
  - apply N.compare_lt_iff. lia.
  - apply N.compare_gt_iff. lia.
Qed.

(** Zero-filled decimals of one width compare like the numbers. *)
Lemma digits_compare (k : nat) (n m : N) :
  (n < 10 ^ N.of_nat k)%N -> (m < 10 ^ N.of_nat k)%N ->
  String.compare (PyTime.digits k n) (PyTime.digits k m) = (n ?= m)%N.
Proof.
  revert n m; induction k as [|k IH]; intros n m Hn Hm.
  - simpl in *. assert (n = 0%N) by lia. assert (m = 0%N) by lia. now subst.
  - cbn [PyTime.digits]. rewrite compare_app by now rewrite !digits_length.
    rewrite Nat2N.inj_succ, N.pow_succ_r' in Hn, Hm.
    rewrite IH.
    + simpl. rewrite digit_compare.
      replace (match (n mod 10 ?= m mod 10)%N with Eq => Eq | c => c end)
        with (n mod 10 ?= m mod 10)%N by now destruct (n mod 10 ?= m mod 10)%N.
      apply decimal_compare.
    + apply N.Div0.div_lt_upper_bound. lia.
    + apply N.Div0.div_lt_upper_bound. lia.
Qed.

Lemma compare_field (k : nat) (n m : N) (c : ascii) (x y : string) :
  (n < 10 ^ N.of_nat k)%N -> (m < 10 ^ N.of_nat k)%N ->
  String.compare (PyTime.digits k n +:+ String c x) (PyTime.digits k m +:+ String c y)
  = PyTime.lex (n ?= m)%N (String.compare x y).
Proof.
  intros Hn Hm. rewrite compare_app by now rewrite !digits_length.
  rewrite digits_compare by assumption. simpl.
  now rewrite ascii_compare_refl.
Qed.

Lemma days_in_month_le (y m : N) : (PyTime.days_in_month y m <= 31)%N.
Proof.
  unfold PyTime.days_in_month.
  repeat match goal with |- context [if ?b then _ else _] => destruct b end; lia.
Qed.

(** Every field of a well-formed datetime fits the width it is printed in. *)
Lemma valid_widths (t : datetime) :
  PyTime.valid t = true ->
  (year t < 10 ^ 4 /\ month t < 10 ^ 2 /\ day t < 10 ^ 2 /\ hour t < 10 ^ 2
   /\ minute t < 10 ^ 2 /\ second t < 10 ^ 2 /\ microsecond t < 10 ^ 6)%N.
Proof.
  unfold PyTime.valid. rewrite !andb_true_iff.
  rewrite !N.leb_le, !N.ltb_lt.
  pose proof (days_in_month_le (year t) (month t)).
  change (10 ^ 4)%N with 10000%N. change (10 ^ 2)%N with 100%N.
  change (10 ^ 6)%N with 1000000%N. lia.
Qed.

Lemma fraction_compare (a b : N) :
  (a < 10 ^ 6)%N -> (b < 10 ^ 6)%N ->
  String.compare
    (if (a =? 0)%N then EmptyString else "." +:+ PyTime.digits 6 a)
    (if (b =? 0)%N then EmptyString else "." +:+ PyTime.digits 6 b)
  = (a ?= b)%N.
Proof.
  intros Ha Hb.
  destruct (N.eqb_spec a 0) as [->|Ea], (N.eqb_spec b 0) as [->|Eb].
  - reflexivity.
  - cbn [String.append String.compare]. symmetry. apply N.compare_lt_iff. lia.
  - cbn [String.append String.compare]. symmetry. apply N.compare_gt_iff. lia.
  - cbn [String.append String.compare]. rewrite ascii_compare_refl.
    now apply (digits_compare 6).
Qed.

(** ISO strings of well-formed datetimes compare like the datetimes. *)
Lemma isoformat_compare (a b : datetime) :
  PyTime.valid a = true -> PyTime.valid b = true ->
  String.compare (PyTime.isoformat a) (PyTime.isoformat b) = PyTime.compare a b.
Proof.
  intros Ha Hb.
  destruct (valid_widths a Ha) as (Ya & Ma & Da & ha & ma & sa & ua).
  destruct (valid_widths b Hb) as (Yb & Mb & Db & hb & mb & sb & ub).
  unfold PyTime.isoformat, PyTime.isoformat_sep, PyTime.isodate, PyTime.isotime,
    PyTime.compare.
  rewrite !append_assoc. cbn [String.append].
  rewrite (compare_field 4) by assumption. f_equal.
  rewrite (compare_field 2) by assumption. f_equal.
  rewrite (compare_field 2) by assumption. f_equal.
  rewrite (compare_field 2) by assumption. f_equal.
  rewrite (compare_field 2) by assumption. f_equal.
  rewrite compare_app by now rewrite !digits_length.
  rewrite (digits_compare 2) by assumption. f_equal.
  now apply fraction_compare.
Qed.

Lemma isoformat_leb (a b : datetime) :
  PyTime.valid a = true -> PyTime.valid b = true ->
  String.leb (PyTime.isoformat a) (PyTime.isoformat b) = PyTime.leb a b.
Proof.
  intros Ha Hb. unfold String.leb, PyTime.leb.
  now rewrite isoformat_compare.
Qed.
Lemma leb_refl (a : datetime) : PyTime.leb a a = true.
Proof.
  unfold PyTime.leb, PyTime.compare. now rewrite !N.compare_refl.
Qed.

Lemma clock_of_nondecreasing (l : list datetime) (final : datetime) :
  readings_sorted l final = true -> nondecreasing (clock_of l final).
Proof.
  unfold nondecreasing, clock_of. induction l as [|a l IH]; intros Hs i j Hij.
  - destruct i, j; apply leb_refl.
  - simpl in Hs. apply andb_prop in Hs as [Hs Hl]. apply andb_prop in Hs as [Hall Hfin].
    destruct i as [|i], j as [|j]; simpl; try lia.
    + apply leb_refl.
    + destruct (nth_in_or_default j l final) as [Hin|Hd].
      * rewrite forallb_forall in Hall. now apply Hall.
      * now rewrite Hd.
    + apply IH; [exact Hl | lia].
Qed.

Lemma clock_of_all_valid (l : list datetime) (final : datetime) :
  forallb PyTime.valid l && PyTime.valid final = true -> all_valid (clock_of l final).
Proof.
  unfold all_valid, clock_of. intros H i. apply andb_prop in H as [Hall Hfin].
  destruct (nth_in_or_default i l final) as [Hin|Hd].
  - rewrite forallb_forall in Hall. now apply Hall.
  - now rewrite Hd.
Qed.

(** Readings of one second give one ID. *)
Lemma same_second_id (topic : string) (a b : datetime) :
  same_second a b = true -> entry_id_of topic a = entry_id_of topic b.
Proof.
  unfold same_second. rewrite !andb_true_iff, !N.eqb_eq.
  intros [[[[[Hy Hm] Hd] Hh] Hmi] Hs]. unfold entry_id_of. congruence.
Qed.

End TimeFacts.

(** * The knowledge base, call by call *)

(** Unfold the effect layer and let the records compute. *)
Ltac run_effects :=
  unfold now, logger_info, open_w, json_dump, bind, ret, raise,
    get_self, set_self, get_env, set_env;
  cbn -[PyTime.isoformat PyTime.strftime PyTime.str path_join String.append
        PyDict.get PyDict.set insert lookup open_error].

Section KnowledgeBaseRuns.

Implicit Types (w : World KnowledgeBase.t) (topic entry_id query : string)
         (content : pyvalue).

Lemma entry_id_format topic (ts : datetime) :
  topic +:+ "_" +:+ PyTime.strftime "%Y%m%d_%H%M%S" ts = entry_id_of topic ts.
Proof. reflexivity. Qed.

(** [add_entry] reads the clock three times and assigns the entry
    before it writes the file; a file that cannot be opened makes it
    raise with the entry already in memory. *)
Lemma add_entry_run topic content w :
  KnowledgeBase.add_entry topic content w
  = if writable (env w) (entry_path (self w) (added_id topic w))
    then (Return (added_id topic w),
          mkWorld (added_store topic content w)
                  (mkEnv (clock (env w)) (3 + ticks (env w))
                         (<[entry_path (self w) (added_id topic w)
                            := Json (Entry.to_value (added_entry topic content w))]>
                            (<[entry_path (self w) (added_id topic w) := Truncated]>
                               (files (env w))))
                         (writable (env w))
                         (log (env w) ++ ["Added new knowledge base entry: "
                                          +:+ added_id topic w])))
    else (Raise (open_error (entry_path (self w) (added_id topic w))),
          mkWorld (added_store topic content w)
                  (mkEnv (clock (env w)) (3 + ticks (env w)) (files (env w))
                         (writable (env w)) (log (env w)))).
Proof.
  destruct w as [[sp es] [c n fs ok lg]].
  unfold added_store, added_entry, added_id, entry_path.
  rewrite <- !entry_id_format.
  unfold KnowledgeBase.add_entry, KnowledgeBase._save_entry,
    KnowledgeBase.setitem, KnowledgeBase.getitem.
  run_effects.
  destruct (ok _); run_effects; [|reflexivity].
  rewrite get_set_eq. reflexivity.
Qed.

Lemma add_entry_outcome topic content w :
  fst (KnowledgeBase.add_entry topic content w)
  = if writable (env w) (entry_path (self w) (added_id topic w))
    then Return (added_id topic w)
    else Raise (open_error (entry_path (self w) (added_id topic w))).
Proof. rewrite add_entry_run. now destruct (writable _ _). Qed.

(** Whether it returns or raises, [add_entry] leaves the entry in the
    store and has read the clock three times. *)
Lemma add_entry_world topic content w :
  self (snd (KnowledgeBase.add_entry topic content w)) = added_store topic content w
  /\ clock (env (snd (KnowledgeBase.add_entry topic content w))) = clock (env w)
  /\ ticks (env (snd (KnowledgeBase.add_entry topic content w))) = 3 + ticks (env w)
  /\ writable (env (snd (KnowledgeBase.add_entry topic content w))) = writable (env w).
Proof. rewrite add_entry_run. now destruct (writable _ _). Qed.

(** A new ID goes to the end of the store, a known one keeps its place:
    the order of [entries] is the insertion order of the dict. *)
Lemma add_entry_insertion_order topic content w :
  PyDict.keys (KnowledgeBase.entries (self (snd (KnowledgeBase.add_entry topic content w))))
  = if PyDict.mem (added_id topic w) (KnowledgeBase.entries (self w))
    then PyDict.keys (KnowledgeBase.entries (self w))
    else PyDict.keys (KnowledgeBase.entries (self w)) ++ [added_id topic w].
Proof.
  destruct (add_entry_world topic content w) as (-> & _).
  unfold added_store. cbn [KnowledgeBase.entries].
  destruct (PyDict.mem _ _) eqn:E;
    [now apply keys_set_present | now apply keys_set_absent].
Qed.

Lemma update_entry_absent entry_id content w :
  PyDict.get entry_id (KnowledgeBase.entries (self w)) = None ->
  KnowledgeBase.update_entry entry_id content w = (Return false, w).
Proof.
  intros Habs. destruct w as [[sp es] [c n fs ok lg]]. simpl in Habs.
  unfold KnowledgeBase.update_entry, PyDict.mem. run_effects.
  now rewrite Habs.
Qed.

(** On a known ID [update_entry] assigns both fields in memory, reads
    the clock once, and then writes the file. *)
Lemma update_entry_present entry_id content w (e : Entry.t) :
  PyDict.get entry_id (KnowledgeBase.entries (self w)) = Some e ->
  KnowledgeBase.update_entry entry_id content w
  = if writable (env w) (entry_path (self w) entry_id)
    then (Return true,
          mkWorld (updated_store entry_id e content w)
                  (mkEnv (clock (env w)) (1 + ticks (env w))
                         (<[entry_path (self w) entry_id
                            := Json (Entry.to_value (updated_entry e content w))]>
                            (<[entry_path (self w) entry_id := Truncated]>
                               (files (env w))))
                         (writable (env w))
                         (log (env w) ++ ["Updated knowledge base entry: "
                                          +:+ entry_id])))
    else (Raise (open_error (entry_path (self w) entry_id)),
          mkWorld (updated_store entry_id e content w)
                  (mkEnv (clock (env w)) (1 + ticks (env w)) (files (env w))
                         (writable (env w)) (log (env w)))).
Proof.
  intros Hget. destruct w as [[sp es] [c n fs ok lg]]. simpl in Hget.
  unfold updated_store, updated_entry, entry_path.
  unfold KnowledgeBase.update_entry, KnowledgeBase._save_entry,
    KnowledgeBase.setitem, KnowledgeBase.getitem, PyDict.mem.
  run_effects. rewrite Hget. run_effects. rewrite Hget. run_effects.
  rewrite get_set_eq. run_effects. rewrite set_set.
  destruct (ok _); run_effects; [|reflexivity].
  rewrite get_set_eq. reflexivity.
Qed.

Lemma get_entry_run entry_id w :
  KnowledgeBase.get_entry entry_id w
  = (Return (PyDict.get entry_id (KnowledgeBase.entries (self w))), w).
Proof. reflexivity. Qed.

(** The loop of [search] keeps what it had and appends, in order, one
    record per matching item. *)
Lemma search_loop_filter query (items : list (string * Entry.t))
      (results : list SearchResult.t) :
  KnowledgeBase.search_loop query items results
  = results ++ map (fun kv => SearchResult.of_entry (fst kv) (snd kv))
                   (List.filter (fun kv => KnowledgeBase.matches query (snd kv)) items).
Proof.
  revert results; induction items as [|[k e] items IH]; intros results; simpl.
  - now rewrite app_nil_r.
  - destruct (KnowledgeBase.matches query e); simpl.
    + rewrite IH, <- app_assoc. reflexivity.
    + apply IH.
Qed.

Lemma search_run query w :
  KnowledgeBase.search query w
  = (Return (map (fun kv => SearchResult.of_entry (fst kv) (snd kv))
                 (List.filter (fun kv => KnowledgeBase.matches query (snd kv))
                              (KnowledgeBase.entries (self w)))), w).
Proof.
  unfold KnowledgeBase.search. run_effects. now rewrite search_loop_filter.
Qed.

End KnowledgeBaseRuns.

(** C5, as stated, fails: in a storage directory without subdirectories
    a topic with a slash names a file that cannot be opened, so
    [add_entry] raises instead of returning the ID (the entry it had
    already assigned stays in the store under that ID). *)
Lemma add_entry_slash_topic :
  let r := KnowledgeBase.add_entry "AI/ML" Sample.descent
             (KnowledgeBase.new "data" (Sample.env_with Sample.ticking Sample.flat_dir)) in
  fst r = Raise (OSError "data/AI/ML_20240101_120000.json")
  /\ fst r <> Return "AI/ML_20240101_120000"
  /\ PyDict.keys (KnowledgeBase.entries (self (snd r))) = ["AI/ML_20240101_120000"]
  /\ files (env (snd r)) = ∅.
Proof. vm_compute. repeat split; try reflexivity. discriminate. Qed.

(** The same call for a plain topic returns and leaves one file. *)
Example add_entry_plain_topic :
  let r := KnowledgeBase.add_entry "ML" Sample.descent
             (KnowledgeBase.new "data" (Sample.env_with Sample.ticking Sample.flat_dir)) in
  fst r = Return "ML_20240101_120000"
  /\ files (env (snd r)) !! "data/ML_20240101_120000.json"
     = Some (Json (PDict [("topic", PStr "ML"); ("content", Sample.descent);
                          ("created_at", PStr "2024-01-01T12:00:00.000002");
                          ("last_modified", PStr "2024-01-01T12:00:00.000003")])).
Proof. vm_compute. repeat split; reflexivity. Qed.

(** * The knowledge base: claims *)

(** C1, as stated, fails: on a clock that moves between two readings,
    the entry [add_entry] stores and [get_entry] hands back has a
    [created_at] that differs from its [last_modified]. *)
Lemma add_then_get_stamps_differ :
  let r := KnowledgeBase.add_entry "ML" Sample.descent (Sample.fresh Sample.ticking) in
  fst r = Return "ML_20240101_120000"
  /\ fst (KnowledgeBase.get_entry "ML_20240101_120000" (snd r))
     = Return (Some (Entry.mk "ML" Sample.descent
                              "2024-01-01T12:00:00.000002"
                              "2024-01-01T12:00:00.000003"))
  /\ "2024-01-01T12:00:00.000002" <> "2024-01-01T12:00:00.000003".
Proof. vm_compute. repeat split; [reflexivity.. | discriminate]. Qed.

(** C1, amended: when the entry's file can be written, [add_entry]
    returns an ID, and [get_entry] on that ID yields an entry (not None)
    with the input topic and content, whose [created_at] is the ISO form
    of the second clock reading of the call and whose [last_modified] is
    that of the third; the two stamps are equal whenever those two
    readings coincide. *)
Theorem add_then_get (topic : string) (content : pyvalue) (w : World KnowledgeBase.t) :
  writable (env w) (entry_path (self w) (added_id topic w)) = true ->
  exists entry_id w' e,
    KnowledgeBase.add_entry topic content w = (Return entry_id, w')
    /\ KnowledgeBase.get_entry entry_id w' = (Return (Some e), w')
    /\ Entry.topic e = topic
    /\ Entry.content e = content
    /\ Entry.created_at e = PyTime.isoformat (clock (env w) (1 + ticks (env w)))
    /\ Entry.last_modified e = PyTime.isoformat (clock (env w) (2 + ticks (env w)))
    /\ (clock (env w) (1 + ticks (env w)) = clock (env w) (2 + ticks (env w)) ->
        Entry.created_at e = Entry.last_modified e).
Proof.
  intros Hok. rewrite add_entry_run, Hok.
  eexists _, _, (added_entry topic content w). split; [reflexivity|].
  rewrite get_entry_run. cbn [self KnowledgeBase.entries added_store].
  rewrite get_set_eq. repeat split; try reflexivity.
  intros Heq. cbn [added_entry Entry.created_at Entry.last_modified]. now rewrite Heq.
Qed.

Lemma add_then_get_witness :
  writable (env (Sample.fresh Sample.frozen))
           (entry_path (self (Sample.fresh Sample.frozen))
                       (added_id "ML" (Sample.fresh Sample.frozen))) = true
  /\ exists entry_id w' e,
    KnowledgeBase.add_entry "ML" Sample.descent (Sample.fresh Sample.frozen)
    = (Return entry_id, w')
    /\ KnowledgeBase.get_entry entry_id w' = (Return (Some e), w')
    /\ Entry.topic e = "ML"
    /\ Entry.content e = Sample.descent
    /\ Entry.created_at e = PyTime.isoformat (Sample.frozen 1)
    /\ Entry.last_modified e = PyTime.isoformat (Sample.frozen 2)
    /\ (Sample.frozen 1 = Sample.frozen 2 -> Entry.created_at e = Entry.last_modified e).
Proof.
  split; [reflexivity|].
  apply (add_then_get "ML" Sample.descent (Sample.fresh Sample.frozen)).
  reflexivity.
Defined.





(** C3: [search] returns, in the order of the store, one record for each
    entry whose content in lowercase string form has the lowercase query
    as a substring, and nothing else; over the two sample entries
    [search("ethics")] returns exactly the first. *)
Theorem search_substring_matches (query : string) (w : World KnowledgeBase.t) :
  KnowledgeBase.search query w
  = (Return (map (fun kv => SearchResult.of_entry (fst kv) (snd kv))
                 (List.filter (fun kv => KnowledgeBase.matches query (snd kv))
                              (KnowledgeBase.entries (self w)))), w)
  /\ (forall e, KnowledgeBase.matches query e = true
                <-> exists before after,
                      PyStr.lower (PyVal.str (Entry.content e))
                      = before +:+ PyStr.lower query +:+ after)
  /\ (forall id1 id2 c1 m1 c2 m2 path env0,
        fst (KnowledgeBase.search "ethics"
               (mkWorld (KnowledgeBase.mk path
                           [(id1, Entry.mk "AI Ethics" (PStr "Research on ethics in AI") c1 m1);
                            (id2, Entry.mk "ML" (PStr "Gradient descent") c2 m2)])
                        env0))
        = Return [SearchResult.mk id1 "AI Ethics" (PStr "Research on ethics in AI") c1 m1]).
Proof.
  split; [apply search_run|]. split.
  - intros e. unfold KnowledgeBase.matches. apply contains_iff.
  - intros. reflexivity.
Qed.

(** C10: with the empty query [search] returns a record for every entry,
    in the order of the store, each with the entry's key under [id] next
    to the entry's own four fields. *)
Theorem search_empty_query (w : World KnowledgeBase.t) :
  exists results,
    KnowledgeBase.search EmptyString w = (Return results, w)
    /\ (forall e, KnowledgeBase.matches EmptyString e = true)
    /\ results = map (fun kv => SearchResult.of_entry (fst kv) (snd kv))
                     (KnowledgeBase.entries (self w))
    /\ Forall2 (fun kv r =>
                  SearchResult.id r = fst kv
                  /\ SearchResult.topic r = Entry.topic (snd kv)
                  /\ SearchResult.content r = Entry.content (snd kv)
                  /\ SearchResult.created_at r = Entry.created_at (snd kv)
                  /\ SearchResult.last_modified r = Entry.last_modified (snd kv))
               (KnowledgeBase.entries (self w)) results.
Proof.
  eexists. split; [apply search_run|].
  assert (Hall : List.filter (fun kv : string * Entry.t =>
                                KnowledgeBase.matches EmptyString (snd kv))
                             (KnowledgeBase.entries (self w))
                 = KnowledgeBase.entries (self w)).
  { induction (KnowledgeBase.entries (self w)) as [|kv l IH]; [reflexivity|].
    cbn [List.filter]. unfold KnowledgeBase.matches at 1.
    cbn [PyStr.lower]. rewrite contains_empty. now rewrite IH. }
  rewrite Hall. clear Hall.
  split; [intros e; unfold KnowledgeBase.matches; apply contains_empty|].
  split; [reflexivity|].
  induction (KnowledgeBase.entries (self w)) as [|kv l IH]; constructor.
  - repeat split.
  - exact IH.
Qed.

(** C5, amended: [add_entry] stores the entry under the topic, an
    underscore and the first clock reading of the call printed down to the
    second, and returns that ID exactly when the entry's file can be
    written. So when the next [add_entry] for the same topic reads the
    clock within that second, it uses the same ID, its entry takes the
    place of the first one and the store has no more keys than before;
    this happens silently, the call returning the ID, when the file can be
    written. *)
Theorem entry_id_collision (topic : string) (content1 content2 : pyvalue)
        (w : World KnowledgeBase.t) :
  let first_reading := clock (env w) (ticks (env w)) in
  let next_reading := clock (env w) (3 + ticks (env w)) in
  let entry_id := topic +:+ "_" +:+ PyTime.strftime "%Y%m%d_%H%M%S" first_reading in
  let r1 := KnowledgeBase.add_entry topic content1 w in
  let r2 := KnowledgeBase.add_entry topic content2 (snd r1) in
  entry_id = entry_id_of topic first_reading
  /\ (fst r1 = Return entry_id
      <-> writable (env w) (entry_path (self w) entry_id) = true)
  /\ (exists e1, PyDict.get entry_id (KnowledgeBase.entries (self (snd r1))) = Some e1
                 /\ Entry.content e1 = content1)
  /\ (same_second first_reading next_reading = true ->
      (fst r2 = Return entry_id
       <-> writable (env w) (entry_path (self w) entry_id) = true)
      /\ (exists e2, PyDict.get entry_id (KnowledgeBase.entries (self (snd r2))) = Some e2
                     /\ Entry.content e2 = content2)
      /\ PyDict.keys (KnowledgeBase.entries (self (snd r2)))
         = PyDict.keys (KnowledgeBase.entries (self (snd r1)))).
Proof.
  cbv zeta. rewrite entry_id_format. fold (added_id topic w).
  set (w1 := snd (KnowledgeBase.add_entry topic content1 w)).
  destruct (add_entry_world topic content1 w) as (Hs & Hc & Ht & Hw).
  fold w1 in Hs, Hc, Ht, Hw.
  split; [reflexivity|]. split.
  { rewrite add_entry_outcome.
    destruct (writable (env w) (entry_path (self w) (added_id topic w)));
      split; try reflexivity; discriminate. }
  split.
  { eexists. rewrite Hs. unfold added_store. cbn [KnowledgeBase.entries].
    rewrite get_set_eq. split; reflexivity. }
  intros Hsame.
  assert (Hid : added_id topic w1 = added_id topic w).
  { unfold added_id. rewrite Hc, Ht. symmetry. now apply same_second_id. }
  assert (Hpath : entry_path (self w1) (added_id topic w1)
                  = entry_path (self w) (added_id topic w)).
  { now rewrite Hid, Hs. }
  destruct (add_entry_world topic content2 w1) as (Hs2 & _).
  rewrite add_entry_outcome, Hw, Hpath, Hid, Hs2.
  unfold added_store at 1 2. cbn [KnowledgeBase.entries]. rewrite Hid.
  split.
  { destruct (writable (env w) (entry_path (self w) (added_id topic w)));
      split; try reflexivity; discriminate. }
  split.
  - eexists. rewrite get_set_eq. split; reflexivity.
  - apply keys_set_present. apply mem_get. eexists.
    rewrite Hs. unfold added_store. cbn [KnowledgeBase.entries]. apply get_set_eq.
Qed.

Lemma entry_id_collision_witness :
  let w := Sample.fresh Sample.ticking in
  let r1 := KnowledgeBase.add_entry "ML" Sample.descent w in
  let r2 := KnowledgeBase.add_entry "ML" Sample.ethics (snd r1) in
  (writable (env w) (entry_path (self w) "ML_20240101_120000") = true
   /\ same_second (Sample.ticking 0) (Sample.ticking 3) = true)
  /\ fst r1 = Return "ML_20240101_120000"
  /\ fst r2 = Return "ML_20240101_120000"
  /\ (exists e2, PyDict.get "ML_20240101_120000" (KnowledgeBase.entries (self (snd r2)))
                 = Some e2
                 /\ Entry.content e2 = Sample.ethics)
  /\ PyDict.keys (KnowledgeBase.entries (self (snd r2)))
     = PyDict.keys (KnowledgeBase.entries (self (snd r1))).
Proof.
  split; [split; reflexivity|].
  destruct (entry_id_collision "ML" Sample.descent Sample.ethics
              (Sample.fresh Sample.ticking)) as (_ & H1 & _ & H2).
  destruct (H2 eq_refl) as (H3 & H4 & H5).
  split; [apply H1; reflexivity|]. split; [apply H3; reflexivity|].
  split; [exact H4 | exact H5].
Defined.

(** ** The order of the two stamps *)

Section Stamps.

Implicit Types (w : World KnowledgeBase.t) (c : nat -> datetime).

Lemma update_entry_world entry_id content w (e : Entry.t) :
  PyDict.get entry_id (KnowledgeBase.entries (self w)) = Some e ->
  self (snd (KnowledgeBase.update_entry entry_id content w))
  = updated_store entry_id e content w
  /\ clock (env (snd (KnowledgeBase.update_entry entry_id content w))) = clock (env w)
  /\ ticks (env (snd (KnowledgeBase.update_entry entry_id content w)))
     = 1 + ticks (env w).
Proof.
  intros Hget. rewrite (update_entry_present _ _ _ _ Hget).
  now destruct (writable _ _).
Qed.

Lemma stamped_new path (e : Env) : stamped (clock e) (KnowledgeBase.new path e).
Proof. split; [reflexivity|]. intros entry_id e0 H. discriminate H. Qed.

Lemma stamped_add_entry c topic content w :
  stamped c w -> stamped c (snd (KnowledgeBase.add_entry topic content w)).
Proof.
  intros [Hc Hall].
  destruct (add_entry_world topic content w) as (Hs & Hc' & Ht & _).
  split; [congruence|]. rewrite Hs, Ht. intros entry_id e.
  unfold added_store. cbn [KnowledgeBase.entries].
  destruct (String.eqb_spec (added_id topic w) entry_id) as [<-|Hne].
  - rewrite get_set_eq. intros [= <-].
    exists (1 + ticks (env w)), (2 + ticks (env w)).
    unfold added_entry. cbn [Entry.created_at Entry.last_modified].
    rewrite Hc. repeat split; lia.
  - rewrite get_set_ne by exact Hne. intros Hget.
    destruct (Hall _ _ Hget) as (i & j & Hij & Hj & Hcr & Hlm).
    exists i, j. repeat split; try assumption; lia.
Qed.

Lemma stamped_update_entry c entry_id content w :
  stamped c w -> stamped c (snd (KnowledgeBase.update_entry entry_id content w)).
Proof.
  intros [Hc Hall].
  destruct (PyDict.get entry_id (KnowledgeBase.entries (self w))) as [e0|] eqn:Hget.
  - destruct (update_entry_world entry_id content w e0 Hget) as (Hs & Hc' & Ht).
    split; [congruence|]. rewrite Hs, Ht. intros k e.
    unfold updated_store. cbn [KnowledgeBase.entries].
    destruct (String.eqb_spec entry_id k) as [<-|Hne].
    + rewrite get_set_eq. intros [= <-].
      destruct (Hall _ _ Hget) as (i & j & Hij & Hj & Hcr & _).
      exists i, (ticks (env w)).
      unfold updated_entry. cbn [Entry.created_at Entry.last_modified].
      rewrite Hc. repeat split; try assumption; lia.
    + rewrite get_set_ne by exact Hne. intros Hk.
      destruct (Hall _ _ Hk) as (i & j & Hij & Hj & Hcr & Hlm).
      exists i, j. repeat split; try assumption; lia.
  - rewrite (update_entry_absent _ _ _ Hget). now split.
Qed.

Lemma stamped_run_call c (cl : call) w : stamped c w -> stamped c (run_call cl w).
Proof.
  destruct cl as [topic content | entry_id | entry_id content | query]; cbn [run_call].
  - apply stamped_add_entry.
  - now rewrite get_entry_run.
  - apply stamped_update_entry.
  - now rewrite search_run.
Qed.

Lemma stamped_run_calls c (cs : list call) w : stamped c w -> stamped c (run_calls cs w).
Proof.
  revert w; induction cs as [|cl cs IH]; intros w H; [exact H|].
  apply IH. now apply stamped_run_call.
Qed.

Lemma stamped_ordered c w :
  nondecreasing c -> all_valid c -> stamped c w -> stamps_ordered w.
Proof.
  intros Hmono Hval [_ Hall] entry_id e Hget.
  destruct (Hall _ _ Hget) as (i & j & Hij & _ & -> & ->).
  rewrite isoformat_leb by apply Hval. now apply Hmono.
Qed.

(** The store stays a dict: no call makes two items share a key. *)
Lemma keys_distinct_run_call (cl : call) w :
  NoDup (PyDict.keys (KnowledgeBase.entries (self w))) ->
  NoDup (PyDict.keys (KnowledgeBase.entries (self (run_call cl w)))).
Proof.
  intros Hd.
  destruct cl as [topic content | entry_id | entry_id content | query]; cbn [run_call].
  - destruct (add_entry_world topic content w) as (-> & _).
    now apply set_keeps_distinct.
  - now rewrite get_entry_run.
  - destruct (PyDict.get entry_id (KnowledgeBase.entries (self w))) as [e0|] eqn:Hget.
    + destruct (update_entry_world entry_id content w e0 Hget) as (-> & _).
      now apply set_keeps_distinct.
    + now rewrite (update_entry_absent _ _ _ Hget).
  - now rewrite search_run.
Qed.

End Stamps.

(** C4, as stated, fails: local time steps back when daylight saving
    ends. An entry added just before 02:00 and updated just after the
    hour was set back has a [last_modified] before its [created_at]. *)
Lemma stamps_disordered_after_fall_back :
  let w := run_calls [AddEntry "ML" Sample.descent;
                      UpdateEntry "ML_20241103_015958" Sample.ethics]
                     (Sample.fresh Sample.fall_back) in
  PyDict.get "ML_20241103_015958" (KnowledgeBase.entries (self w))
  = Some (Entry.mk "ML" Sample.ethics
                   "2024-11-03T01:59:58.000010" "2024-11-03T01:00:05")
  /\ String.leb "2024-11-03T01:59:58.000010" "2024-11-03T01:00:05" = false
  /\ ~ stamps_ordered w.
Proof.
  assert (H : PyDict.get "ML_20241103_015958"
                (KnowledgeBase.entries
                   (self (run_calls [AddEntry "ML" Sample.descent;
                                     UpdateEntry "ML_20241103_015958" Sample.ethics]
                                    (Sample.fresh Sample.fall_back))))
              = Some (Entry.mk "ML" Sample.ethics
                               "2024-11-03T01:59:58.000010" "2024-11-03T01:00:05"))
    by (vm_compute; reflexivity).
  cbv zeta. split; [exact H|]. split; [vm_compute; reflexivity|].
  intros Hord. specialize (Hord _ _ H). vm_compute in Hord. discriminate.
Qed.

(** C4, amended: as long as the clock never steps back (and gives
    well-formed datetimes), every entry of a store built from a new
    [KnowledgeBase] by calls of [add_entry], [get_entry], [update_entry]
    and [search] has [last_modified >= created_at], and each such call
    keeps it so. *)
Theorem stamps_ordered_invariant (path : string) (e : Env) :
  nondecreasing (clock e) -> all_valid (clock e) ->
  stamped (clock e) (KnowledgeBase.new path e)
  /\ (forall w cl, stamped (clock e) w -> stamped (clock e) (run_call cl w))
  /\ (forall w, stamped (clock e) w -> stamps_ordered w)
  /\ (forall cs, stamps_ordered (run_calls cs (KnowledgeBase.new path e))).
Proof.
  intros Hmono Hval. split; [apply stamped_new|].
  split; [intros w cl; apply stamped_run_call|].
  split; [intros w; now apply stamped_ordered|].
  intros cs. apply (stamped_ordered (clock e)); [assumption..|].
  apply stamped_run_calls, stamped_new.
Qed.

Lemma stamps_ordered_invariant_witness :
  (nondecreasing Sample.ticking /\ all_valid Sample.ticking)
  /\ stamps_ordered
       (run_calls [AddEntry "ML" Sample.descent;
                   UpdateEntry "ML_20240101_120000" Sample.ethics]
                  (Sample.fresh Sample.ticking)).
Proof.
  assert (Hmono : nondecreasing Sample.ticking)
    by (apply clock_of_nondecreasing; vm_compute; reflexivity).
  assert (Hval : all_valid Sample.ticking)
    by (apply clock_of_all_valid; vm_compute; reflexivity).
  split; [split; assumption|].
  apply (stamps_ordered_invariant "data"
           (Sample.env_with Sample.ticking Sample.any_path) Hmono Hval).
Defined.

(** * The research tracker: claims *)

Section Tracker.

Implicit Types (w : World AIResearcher.t) (topic : string).

Lemma add_research_topic_run topic (description : string) w :
  AIResearcher.add_research_topic topic description w
  = (Return tt,
     mkWorld (AIResearcher.mk
                (AIResearcher.start_time (self w))
                (<[topic := AIResearcher.mkTopic description
                              (clock (env w) (ticks (env w))) [] []]>
                   (AIResearcher.research_topics (self w)))
                (AIResearcher.knowledge_base (self w)))
             (mkEnv (clock (env w)) (1 + ticks (env w)) (files (env w))
                    (writable (env w))
                    (log (env w) ++ ["Added new research topic: " +:+ topic]))).
Proof. reflexivity. Qed.

Lemma add_paper_absent topic (paper_info : list (string * pyvalue)) w :
  AIResearcher.research_topics (self w) !! topic = None ->
  AIResearcher.add_paper topic paper_info w
  = (Raise (ValueError ("Topic " +:+ topic +:+ " not found")), w).
Proof.
  intros Habs. destruct w as [r e]. cbn [self] in Habs.
  unfold AIResearcher.add_paper. run_effects. rewrite Habs.
  rewrite bool_decide_eq_false_2 by (intros [x Hx]; discriminate).
  reflexivity.
Qed.

Lemma add_note_absent topic (note : string) w :
  AIResearcher.research_topics (self w) !! topic = None ->
  AIResearcher.add_note topic note w
  = (Raise (ValueError ("Topic " +:+ topic +:+ " not found")), w).
Proof.
  intros Habs. destruct w as [r e]. cbn [self] in Habs.
  unfold AIResearcher.add_note. run_effects. rewrite Habs.
  rewrite bool_decide_eq_false_2 by (intros [x Hx]; discriminate).
  reflexivity.
Qed.

Lemma add_paper_present topic (paper_info : list (string * pyvalue)) w
      (tp : AIResearcher.Topic) :
  AIResearcher.research_topics (self w) !! topic = Some tp ->
  AIResearcher.add_paper topic paper_info w
  = (Return tt,
     mkWorld (AIResearcher.mk
                (AIResearcher.start_time (self w))
                (<[topic := AIResearcher.mkTopic
                              (AIResearcher.description tp)
                              (AIResearcher.created_at tp)
                              (AIResearcher.papers tp
                               ++ [AIResearcher.make_paper paper_info
                                     (clock (env w) (ticks (env w)))])
                              (AIResearcher.notes tp)]>
                   (AIResearcher.research_topics (self w)))
                (AIResearcher.knowledge_base (self w)))
             (mkEnv (clock (env w)) (1 + ticks (env w)) (files (env w))
                    (writable (env w))
                    (log (env w) ++ ["Added new paper to topic " +:+ topic]))).
Proof.
  intros Hget. destruct w as [r e]. cbn [self] in Hget.
  unfold AIResearcher.add_paper, AIResearcher.getitem, AIResearcher.set_topic.
  run_effects. rewrite Hget.
  rewrite bool_decide_eq_true_2 by (now exists tp).
  run_effects. rewrite Hget. reflexivity.
Qed.

Lemma add_note_present topic (note : string) w (tp : AIResearcher.Topic) :
  AIResearcher.research_topics (self w) !! topic = Some tp ->
  AIResearcher.add_note topic note w
  = (Return tt,
     mkWorld (AIResearcher.mk
                (AIResearcher.start_time (self w))
                (<[topic := AIResearcher.mkTopic
                              (AIResearcher.description tp)
                              (AIResearcher.created_at tp)
                              (AIResearcher.papers tp)
                              (AIResearcher.notes tp
                               ++ [AIResearcher.mkNote note
                                     (clock (env w) (ticks (env w)))])]>
                   (AIResearcher.research_topics (self w)))
                (AIResearcher.knowledge_base (self w)))
             (mkEnv (clock (env w)) (1 + ticks (env w)) (files (env w))
                    (writable (env w))
                    (log (env w) ++ ["Added new note to topic " +:+ topic]))).
Proof.
  intros Hget. destruct w as [r e]. cbn [self] in Hget.
  unfold AIResearcher.add_note, AIResearcher.getitem, AIResearcher.set_topic.
  run_effects. rewrite Hget.
  rewrite bool_decide_eq_true_2 by (now exists tp).
  run_effects. rewrite Hget. reflexivity.
Qed.

End Tracker.

Example main_sample :
  log (env (Sample.tracker Sample.ticking))
  = ["AI Researcher initialized at 2024-01-01 12:00:00.000001";
     "Added new research topic: AI Ethics";
     "AI Researcher application started successfully"]
  /\ AIResearcher.research_topics (self (Sample.tracker Sample.ticking)) !! "AI Ethics"
     = Some (AIResearcher.mkTopic
               "Research on ethical considerations in AI development and deployment"
               (Sample.noon 2) [] []).
Proof. vm_compute. split; reflexivity. Qed.

Example add_paper_sample :
  let w := Sample.tracker Sample.ticking in
  AIResearcher.add_paper "ML" [("title", PStr "Attention")] w
  = (Raise (ValueError "Topic ML not found"), w)
  /\ AIResearcher.papers
       <$> (AIResearcher.research_topics
              (self (snd (AIResearcher.add_paper
                            "AI Ethics"
                            [("title", PStr "Attention"); ("added_at", PStr "never")] w)))
            !! "AI Ethics")
     = Some [[("title", AIResearcher.Info (PStr "Attention"));
              ("added_at", AIResearcher.Stamp (Sample.noon 3))]].
Proof. vm_compute. split; reflexivity. Qed.

(** C6: on a topic that is not tracked, [add_paper] and [add_note] raise
    the not-found [ValueError] and leave the whole world as it was; on a
    tracked topic each returns, having appended exactly one record to the
    papers (respectively the notes) of that topic, whose other fields and
    every other topic stay as they were. *)
Theorem add_paper_add_note (topic : string) (paper_info : list (string * pyvalue))
        (note : string) (w : World AIResearcher.t) :
  let rp := AIResearcher.add_paper topic paper_info w in
  let rn := AIResearcher.add_note topic note w in
  match AIResearcher.research_topics (self w) !! topic with
  | None =>
      rp = (Raise (ValueError ("Topic " +:+ topic +:+ " not found")), w)
      /\ rn = (Raise (ValueError ("Topic " +:+ topic +:+ " not found")), w)
  | Some tp =>
      (fst rp = Return tt
       /\ (exists tp',
             AIResearcher.research_topics (self (snd rp)) !! topic = Some tp'
             /\ AIResearcher.papers tp'
                = AIResearcher.papers tp
                  ++ [AIResearcher.make_paper paper_info (clock (env w) (ticks (env w)))]
             /\ length (AIResearcher.papers tp') = S (length (AIResearcher.papers tp))
             /\ AIResearcher.notes tp' = AIResearcher.notes tp
             /\ AIResearcher.description tp' = AIResearcher.description tp
             /\ AIResearcher.created_at tp' = AIResearcher.created_at tp)
       /\ (forall other, other <> topic ->
             AIResearcher.research_topics (self (snd rp)) !! other
             = AIResearcher.research_topics (self w) !! other))
      /\ (fst rn = Return tt
          /\ (exists tp',
                AIResearcher.research_topics (self (snd rn)) !! topic = Some tp'
                /\ AIResearcher.notes tp'
                   = AIResearcher.notes tp
                     ++ [AIResearcher.mkNote note (clock (env w) (ticks (env w)))]
                /\ length (AIResearcher.notes tp') = S (length (AIResearcher.notes tp))
                /\ AIResearcher.papers tp' = AIResearcher.papers tp
                /\ AIResearcher.description tp' = AIResearcher.description tp
                /\ AIResearcher.created_at tp' = AIResearcher.created_at tp)
          /\ (forall other, other <> topic ->
                AIResearcher.research_topics (self (snd rn)) !! other
                = AIResearcher.research_topics (self w) !! other))
  end.
Proof.
  cbv zeta.
  destruct (AIResearcher.research_topics (self w) !! topic) as [tp|] eqn:Hget.
  - rewrite (add_paper_present _ paper_info _ _ Hget),
      (add_note_present _ note _ _ Hget).
    cbn [fst snd self AIResearcher.research_topics].
    split; (split; [reflexivity|]); split.
    + eexists. rewrite lookup_insert_eq. split; [reflexivity|].
      cbn [AIResearcher.papers AIResearcher.notes AIResearcher.description
             AIResearcher.created_at].
      rewrite length_app. cbn [length]. repeat split. lia.
    + intros other Hne. now rewrite lookup_insert_ne.
    + eexists. rewrite lookup_insert_eq. split; [reflexivity|].
      cbn [AIResearcher.papers AIResearcher.notes AIResearcher.description
             AIResearcher.created_at].
      rewrite length_app. cbn [length]. repeat split. lia.
    + intros other Hne. now rewrite lookup_insert_ne.
  - split; [now apply add_paper_absent | now apply add_note_absent].
Qed.

(** C7: [add_research_topic] on a name that is already tracked (or on a
    new one) leaves under that name a record with the new description and
    empty paper and note lists, whatever was there before. *)
Theorem add_research_topic_replaces (topic description : string)
        (w : World AIResearcher.t) :
  let r := AIResearcher.add_research_topic topic description w in
  fst r = Return tt
  /\ exists tp',
       AIResearcher.research_topics (self (snd r)) !! topic = Some tp'
       /\ AIResearcher.description tp' = description
       /\ AIResearcher.papers tp' = []
       /\ AIResearcher.notes tp' = []
       /\ AIResearcher.created_at tp' = clock (env w) (ticks (env w)).
Proof.
  cbv zeta. rewrite add_research_topic_run. cbn [fst snd self AIResearcher.research_topics].
  split; [reflexivity|]. eexists. rewrite lookup_insert_eq. repeat split.
Qed.

(** * The paper analyzer: claims *)

Example analyzer_sample :
  let w := Sample.analyzer Sample.ticking in
  log (env (snd (PaperAnalyzer.extract_citations "Smith (2020) showed ..." w)))
  = ["Paper Analyzer initialized"; "Extracted 0 citations"]
  /\ fst (PaperAnalyzer.analyze_paper "Smith (2020) showed ..." w)
     = Return (PaperAnalyzer.mkAnalysis (Sample.noon 1) [] EmptyString EmptyString [] []).
Proof. vm_compute. split; reflexivity. Qed.

(** C9: whatever the text (and whatever [max_length]),
    [extract_citations] returns the empty list, [summarize_paper] the
    empty string, [identify_key_concepts] the empty list, and
    [analyze_paper] a record with empty [key_findings], [citations] and
    [topics] and empty [methodology] and [conclusions]. *)
Theorem analyzer_stubs (paper_content : string) (max_length : option Z)
        (w : World PaperAnalyzer.t) :
  fst (PaperAnalyzer.extract_citations paper_content w) = Return []
  /\ fst (PaperAnalyzer.summarize_paper paper_content max_length w) = Return EmptyString
  /\ fst (PaperAnalyzer.identify_key_concepts paper_content w) = Return []
  /\ exists analysis,
       fst (PaperAnalyzer.analyze_paper paper_content w) = Return analysis
       /\ PaperAnalyzer.key_findings analysis = []
       /\ PaperAnalyzer.citations analysis = []
       /\ PaperAnalyzer.topics analysis = []
       /\ PaperAnalyzer.methodology analysis = EmptyString
       /\ PaperAnalyzer.conclusions analysis = EmptyString.
Proof.
  repeat split. eexists. split; [reflexivity|]. repeat split.
Qed.

(** * Beyond the claims: the files on disk *)

Section Persistence.

Implicit Types (w : World KnowledgeBase.t) (topic entry_id : string)
         (content : pyvalue).

Lemma load_entry_run entry_id w :
  KnowledgeBase._load_entry entry_id w
  = match files (env w) !! entry_path (self w) entry_id with
    | None => (Return None, w)
    | Some (Json doc) => (Return (Some doc), w)
    | Some Truncated => (Raise JSONDecodeError, w)
    end.
Proof.
  unfold KnowledgeBase._load_entry, entry_path. run_effects.
  destruct (files (env w) !! _) as [[|doc]|]; reflexivity.
Qed.

(** [_save_entry] opens the file before it looks the entry up. *)
Lemma save_entry_run entry_id w :
  KnowledgeBase._save_entry entry_id w
  = if writable (env w) (entry_path (self w) entry_id)
    then match PyDict.get entry_id (KnowledgeBase.entries (self w)) with
         | Some e =>
             (Return tt,
              mkWorld (self w)
                      (mkEnv (clock (env w)) (ticks (env w))
                             (<[entry_path (self w) entry_id := Json (Entry.to_value e)]>
                                (<[entry_path (self w) entry_id := Truncated]>
                                   (files (env w))))
                             (writable (env w)) (log (env w))))
         | None =>
             (Raise (KeyError entry_id),
              mkWorld (self w)
                      (mkEnv (clock (env w)) (ticks (env w))
                             (<[entry_path (self w) entry_id := Truncated]> (files (env w)))
                             (writable (env w)) (log (env w))))
         end
    else (Raise (open_error (entry_path (self w) entry_id)), w).
Proof.
  destruct w as [[sp es] [c n fs ok lg]].
  unfold KnowledgeBase._save_entry, KnowledgeBase.getitem, entry_path.
  run_effects. destruct (ok _); run_effects; [|reflexivity].
  destruct (PyDict.get entry_id es); reflexivity.
Qed.

End Persistence.

(** X3: when the file of the new entry cannot be opened, [add_entry]
    raises with the entry already assigned: [get_entry] finds it, while
    the files and the log are as before the call. *)
Theorem add_entry_failed_write (topic : string) (content : pyvalue)
        (w : World KnowledgeBase.t) :
  writable (env w) (entry_path (self w) (added_id topic w)) = false ->
  let r := KnowledgeBase.add_entry topic content w in
  (exists ex, fst r = Raise ex)
  /\ fst (KnowledgeBase.get_entry (added_id topic w) (snd r))
     = Return (Some (added_entry topic content w))
  /\ files (env (snd r)) = files (env w)
  /\ log (env (snd r)) = log (env w).
Proof.
  intros Hno. cbv zeta. rewrite add_entry_run, Hno, get_entry_run.
  cbn [fst snd self env files log added_store KnowledgeBase.entries].
  rewrite get_set_eq. split; [eexists; reflexivity|]. now repeat split.
Qed.

Lemma add_entry_failed_write_witness :
  let w := KnowledgeBase.new "data" (Sample.env_with Sample.ticking Sample.flat_dir) in
  let r := KnowledgeBase.add_entry "AI/ML" Sample.descent w in
  writable (env w) (entry_path (self w) (added_id "AI/ML" w)) = false
  /\ (exists ex, fst r = Raise ex)
  /\ fst (KnowledgeBase.get_entry (added_id "AI/ML" w) (snd r))
     = Return (Some (added_entry "AI/ML" Sample.descent w))
  /\ files (env (snd r)) = files (env w)
  /\ log (env (snd r)) = log (env w).
Proof.
  split; [vm_compute; reflexivity|].
  apply (add_entry_failed_write "AI/ML" Sample.descent
           (KnowledgeBase.new "data" (Sample.env_with Sample.ticking Sample.flat_dir))).
  vm_compute. reflexivity.
Defined.

(** X4: when the file of a known entry cannot be opened, [update_entry]
    raises after it has replaced the content in memory: the store shows
    the new content, the files still hold what they held. *)
Theorem update_entry_failed_write (entry_id : string) (content : pyvalue)
        (w : World KnowledgeBase.t) (e : Entry.t) :
  PyDict.get entry_id (KnowledgeBase.entries (self w)) = Some e ->
  writable (env w) (entry_path (self w) entry_id) = false ->
  let r := KnowledgeBase.update_entry entry_id content w in
  (exists ex, fst r = Raise ex)
  /\ (exists e', fst (KnowledgeBase.get_entry entry_id (snd r)) = Return (Some e')
                 /\ Entry.content e' = content)
  /\ files (env (snd r)) = files (env w).
Proof.
  intros Hget Hno. cbv zeta.
  rewrite (update_entry_present _ _ _ _ Hget), Hno, get_entry_run.
  cbn [fst snd self env files updated_store KnowledgeBase.entries].
  rewrite get_set_eq. split; [eexists; reflexivity|]. split; [|reflexivity].
  eexists. split; reflexivity.
Qed.

Lemma update_entry_failed_write_witness :
  let w := snd (KnowledgeBase.add_entry "AI/ML" Sample.descent
                  (KnowledgeBase.new "data"
                     (Sample.env_with Sample.ticking Sample.flat_dir))) in
  let r := KnowledgeBase.update_entry "AI/ML_20240101_120000" Sample.ethics w in
  (PyDict.get "AI/ML_20240101_120000" (KnowledgeBase.entries (self w))
   = Some (Entry.mk "AI/ML" Sample.descent
                    "2024-01-01T12:00:00.000002" "2024-01-01T12:00:00.000003")
   /\ writable (env w) (entry_path (self w) "AI/ML_20240101_120000") = false)
  /\ (exists ex, fst r = Raise ex)
  /\ (exists e', fst (KnowledgeBase.get_entry "AI/ML_20240101_120000" (snd r))
                 = Return (Some e')
                 /\ Entry.content e' = Sample.ethics)
  /\ files (env (snd r)) = files (env w).
Proof.
  split; [split; vm_compute; reflexivity|].
  apply (update_entry_failed_write "AI/ML_20240101_120000" Sample.ethics
           (snd (KnowledgeBase.add_entry "AI/ML" Sample.descent
                   (KnowledgeBase.new "data"
                      (Sample.env_with Sample.ticking Sample.flat_dir))))
           (Entry.mk "AI/ML" Sample.descent
                     "2024-01-01T12:00:00.000002" "2024-01-01T12:00:00.000003")).
  - vm_compute. reflexivity.
  - vm_compute. reflexivity.
Defined.

(** X5: [_save_entry] on an ID the store does not have raises [KeyError]
    only after opening the file, so a file that can be opened is left
    empty (whatever it held) and a later [_load_entry] of that ID raises
    [JSONDecodeError]; the store itself is untouched. *)
Theorem save_entry_unknown_truncates (entry_id : string) (w : World KnowledgeBase.t) :
  PyDict.get entry_id (KnowledgeBase.entries (self w)) = None ->
  writable (env w) (entry_path (self w) entry_id) = true ->
  let r := KnowledgeBase._save_entry entry_id w in
  fst r = Raise (KeyError entry_id)
  /\ self (snd r) = self w
  /\ files (env (snd r)) !! entry_path (self w) entry_id = Some Truncated
  /\ fst (KnowledgeBase._load_entry entry_id (snd r)) = Raise JSONDecodeError.
Proof.
  intros Habs Hok. cbv zeta. rewrite save_entry_run, Hok, Habs, load_entry_run.
  cbn [fst snd self env files]. rewrite lookup_insert_eq. repeat split.
Qed.

Lemma save_entry_unknown_truncates_witness :
  let w := snd (KnowledgeBase.add_entry "ML" Sample.descent (Sample.fresh Sample.ticking)) in
  let w0 := mkWorld (KnowledgeBase.mk "data" []) (env w) in
  let r := KnowledgeBase._save_entry "ML_20240101_120000" w0 in
  (PyDict.get "ML_20240101_120000" (KnowledgeBase.entries (self w0)) = None
   /\ writable (env w0) (entry_path (self w0) "ML_20240101_120000") = true)
  /\ fst (KnowledgeBase._load_entry "ML_20240101_120000" w0)
     = Return (Some (Entry.to_value
                       (Entry.mk "ML" Sample.descent
                                 "2024-01-01T12:00:00.000002"
                                 "2024-01-01T12:00:00.000003")))
  /\ fst r = Raise (KeyError "ML_20240101_120000")
  /\ self (snd r) = self w0
  /\ files (env (snd r)) !! entry_path (self w0) "ML_20240101_120000" = Some Truncated
  /\ fst (KnowledgeBase._load_entry "ML_20240101_120000" (snd r)) = Raise JSONDecodeError.
Proof.
  split; [split; vm_compute; reflexivity|].
  split; [vm_compute; reflexivity|].
  apply (save_entry_unknown_truncates "ML_20240101_120000"
           (mkWorld (KnowledgeBase.mk "data" [])
              (env (snd (KnowledgeBase.add_entry "ML" Sample.descent
                           (Sample.fresh Sample.ticking)))))).
  - vm_compute. reflexivity.
  - vm_compute. reflexivity.
Defined.

(** X6: a new [KnowledgeBase] starts empty whatever the disk holds:
    [get_entry] finds nothing, [search] returns the empty list and
    [update_entry] returns false for every ID, also for one whose file
    [_load_entry] can read. Nothing is loaded on construction. *)
Theorem new_store_ignores_disk (path : string) (e : Env)
        (entry_id query : string) (content : pyvalue) :
  let w := KnowledgeBase.new path e in
  KnowledgeBase.entries (self w) = []
  /\ files (env w) = files e
  /\ fst (KnowledgeBase.get_entry entry_id w) = Return None
  /\ fst (KnowledgeBase.search query w) = Return []
  /\ KnowledgeBase.update_entry entry_id content w = (Return false, w)
  /\ (forall doc, files e !! path_join path (entry_id +:+ ".json") = Some (Json doc) ->
        fst (KnowledgeBase._load_entry entry_id w) = Return (Some doc)).
Proof.
  cbv zeta. repeat split.
  intros doc Hdoc. rewrite load_entry_run.
  unfold entry_path. cbn [KnowledgeBase.new KnowledgeBase.init].
  unfold KnowledgeBase.new, KnowledgeBase.init, KnowledgeBase._ensure_storage_exists.
  run_effects. now rewrite Hdoc.
Qed.

(** * Beyond the claims: keys and topics of the store *)

Section StoreFacts.

Implicit Types (w : World KnowledgeBase.t) (topic entry_id : string)
         (content : pyvalue).

Lemma string_length_app (a b : string) :
  String.length (a +:+ b) = String.length a + String.length b.
Proof. induction a as [|c a IH]; simpl; [reflexivity | now rewrite IH]. Qed.

(** Two concatenations with heads of one length agree piecewise. *)
Lemma app_inv_head_length (a b x y : string) :
  String.length a = String.length b -> a +:+ x = b +:+ y -> a = b /\ x = y.
Proof.
  revert b; induction a as [|c a IH]; intros [|d b] Hlen Heq; simpl in *;
    try discriminate.
  - now split.
  - injection Heq as -> Heq. destruct (IH b) as [-> ->]; [congruence | exact Heq |].
    now split.
Qed.

(** Two concatenations with tails of one length agree piecewise. *)
Lemma app_inv_tail_length (a b x y : string) :
  String.length x = String.length y -> a +:+ x = b +:+ y -> a = b /\ x = y.
Proof.
  intros Hlen. revert b; induction a as [|c a IH]; intros [|d b] Heq; simpl in *.
  - now split.
  - apply (f_equal String.length) in Heq. simpl in Heq.
    rewrite string_length_app in Heq. lia.
  - apply (f_equal String.length) in Heq. simpl in Heq.
    rewrite string_length_app in Heq. lia.
  - injection Heq as -> Heq. destruct (IH b Heq) as [-> ->]. now split.
Qed.

Lemma stamp_of_length (ts : datetime) : String.length (stamp_of ts) = 16.
Proof.
  unfold stamp_of. cbn [String.append String.length].
  rewrite !string_length_app. cbn [String.append String.length].
  rewrite !string_length_app, !digits_length. reflexivity.
Qed.

Lemma entry_id_stamp topic (ts : datetime) :
  entry_id_of topic ts = topic +:+ stamp_of ts.
Proof. reflexivity. Qed.

(** The topic can be read back from an ID. *)
Lemma entry_id_topic topic1 topic2 (a b : datetime) :
  entry_id_of topic1 a = entry_id_of topic2 b -> topic1 = topic2.
Proof.
  rewrite !entry_id_stamp. intros H.
  apply app_inv_tail_length in H; [tauto|]. now rewrite !stamp_of_length.
Qed.

Lemma mem_keys {V} (k : string) (d : list (string * V)) :
  PyDict.mem k d = true <-> In k (PyDict.keys d).
Proof.
  unfold PyDict.mem, PyDict.keys. induction d as [|[k0 v0] d IH]; simpl.
  - split; [discriminate | tauto].
  - destruct (String.eqb_spec k k0) as [->|Hne].
    + split; [now left | reflexivity].
    + rewrite IH. split; [now right | intros [H|H]; [congruence | exact H]].
Qed.

Lemma get_in_distinct {V} (k : string) (v : V) (d : list (string * V)) :
  NoDup (PyDict.keys d) -> In (k, v) d -> PyDict.get k d = Some v.
Proof.
  unfold PyDict.keys. induction d as [|[k0 v0] d IH]; simpl; intros Hd Hin; [tauto|].
  apply NoDup_cons in Hd as [Hnotin Hd].
  destruct Hin as [[= -> ->]|Hin].
  - now rewrite String.eqb_refl.
  - destruct (String.eqb_spec k k0) as [->|Hne]; [|now apply IH].
    exfalso. apply Hnotin. apply list_elem_of_In.
    change k0 with (fst (k0, v)). now apply in_map.
Qed.

(** One call adds at most one key, and only at the end. *)
Lemma run_call_keys (cl : call) w :
  exists added,
    PyDict.keys (KnowledgeBase.entries (self (run_call cl w)))
    = PyDict.keys (KnowledgeBase.entries (self w)) ++ added
    /\ length added <= 1.
Proof.
  destruct cl as [topic content | entry_id | entry_id content | query]; cbn [run_call].
  - rewrite add_entry_insertion_order. destruct (PyDict.mem _ _).
    + exists []. rewrite app_nil_r. split; [reflexivity | simpl; lia].
    + eexists. split; [reflexivity | simpl; lia].
  - rewrite get_entry_run. exists []. rewrite app_nil_r. split; [reflexivity | simpl; lia].
  - exists []. rewrite app_nil_r. split; [|simpl; lia].
    destruct (PyDict.get entry_id (KnowledgeBase.entries (self w))) as [e0|] eqn:Hget.
    + destruct (update_entry_world entry_id content w e0 Hget) as (-> & _).
      apply keys_set_present. apply mem_get. now exists e0.
    + now rewrite (update_entry_absent _ _ _ Hget).
  - rewrite search_run. exists []. rewrite app_nil_r. split; [reflexivity | simpl; lia].
Qed.

Lemma keyed_run_call (cl : call) w : keyed w -> keyed (run_call cl w).
Proof.
  intros Hk.
  destruct cl as [topic content | entry_id | entry_id content | query]; cbn [run_call].
  - destruct (add_entry_world topic content w) as (Hs & _).
    intros k e. rewrite Hs. unfold added_store. cbn [KnowledgeBase.entries].
    destruct (String.eqb_spec (added_id topic w) k) as [<-|Hne].
    + rewrite get_set_eq. intros [= <-]. eexists. reflexivity.
    + rewrite get_set_ne by exact Hne. apply Hk.
  - now rewrite get_entry_run.
  - destruct (PyDict.get entry_id (KnowledgeBase.entries (self w))) as [e0|] eqn:Hget.
    + destruct (update_entry_world entry_id content w e0 Hget) as (Hs & _).
      intros k e. rewrite Hs. unfold updated_store. cbn [KnowledgeBase.entries].
      destruct (String.eqb_spec entry_id k) as [<-|Hne].
      * rewrite get_set_eq. intros [= <-]. apply (Hk _ _ Hget).
      * rewrite get_set_ne by exact Hne. apply Hk.
    + now rewrite (update_entry_absent _ _ _ Hget).
  - now rewrite search_run.
Qed.

Lemma keyed_run_calls (cs : list call) w : keyed w -> keyed (run_calls cs w).
Proof.
  revert w; induction cs as [|cl cs IH]; intros w H; [exact H|].
  apply IH. now apply keyed_run_call.
Qed.

Lemma keyed_new path (e : Env) : keyed (KnowledgeBase.new path e).
Proof. intros k e0 H. discriminate H. Qed.

Lemma keys_distinct_run_calls (cs : list call) w :
  NoDup (PyDict.keys (KnowledgeBase.entries (self w))) ->
  NoDup (PyDict.keys (KnowledgeBase.entries (self (run_calls cs w)))).
Proof.
  revert w; induction cs as [|cl cs IH]; intros w H; [exact H|].
  apply IH. now apply keys_distinct_run_call.
Qed.

(** With its key in place, an entry keeps its topic through one call. *)
Lemma topic_kept_run_call (cl : call) w entry_id (e : Entry.t) :
  keyed w ->
  PyDict.get entry_id (KnowledgeBase.entries (self w)) = Some e ->
  exists e', PyDict.get entry_id (KnowledgeBase.entries (self (run_call cl w))) = Some e'
             /\ Entry.topic e' = Entry.topic e.
Proof.
  intros Hk Hget.
  destruct cl as [topic content | k | k content | query]; cbn [run_call].
  - destruct (add_entry_world topic content w) as (Hs & _).
    rewrite Hs. unfold added_store. cbn [KnowledgeBase.entries].
    destruct (String.eqb_spec (added_id topic w) entry_id) as [Heq|Hne].
    + rewrite <- Heq, get_set_eq. eexists. split; [reflexivity|].
      cbn [added_entry Entry.topic].
      destruct (Hk _ _ Hget) as [ts Hts]. rewrite <- Heq in Hts.
      unfold added_id in Hts. rewrite <- entry_id_stamp in Hts.
      now apply entry_id_topic in Hts.
    + rewrite get_set_ne by exact Hne. now exists e.
  - rewrite get_entry_run. now exists e.
  - destruct (PyDict.get k (KnowledgeBase.entries (self w))) as [e0|] eqn:Hk0.
    + destruct (update_entry_world k content w e0 Hk0) as (Hs & _).
      rewrite Hs. unfold updated_store. cbn [KnowledgeBase.entries].
      destruct (String.eqb_spec k entry_id) as [->|Hne].
      * rewrite get_set_eq. eexists. split; [reflexivity|].
        cbn [updated_entry Entry.topic]. congruence.
      * rewrite get_set_ne by exact Hne. now exists e.
    + rewrite (update_entry_absent _ _ _ Hk0). now exists e.
  - rewrite search_run. now exists e.
Qed.

End StoreFacts.

(** X7: no sequence of calls removes or reorders an entry: the keys the
    store had are still its first keys, in the same order, and every ID
    that was present stays present. *)
Theorem store_only_grows (cs : list call) (w : World KnowledgeBase.t) :
  (exists added,
     PyDict.keys (KnowledgeBase.entries (self (run_calls cs w)))
     = PyDict.keys (KnowledgeBase.entries (self w)) ++ added)
  /\ (forall entry_id,
        PyDict.mem entry_id (KnowledgeBase.entries (self w)) = true ->
        PyDict.mem entry_id (KnowledgeBase.entries (self (run_calls cs w))) = true).
Proof.
  assert (Hkeys : exists added,
             PyDict.keys (KnowledgeBase.entries (self (run_calls cs w)))
             = PyDict.keys (KnowledgeBase.entries (self w)) ++ added).
  { revert w; induction cs as [|cl cs IH]; intros w.
    - exists []. now rewrite app_nil_r.
    - cbn [run_calls fold_left]. fold (run_calls cs (run_call cl w)).
      destruct (IH (run_call cl w)) as [a2 H2].
      destruct (run_call_keys cl w) as (a1 & H1 & _).
      exists (a1 ++ a2). now rewrite H2, H1, app_assoc. }
  split; [exact Hkeys|].
  intros entry_id Hin. destruct Hkeys as [added Hk].
  apply mem_keys. rewrite Hk. apply in_or_app. left. now apply mem_keys.
Qed.

(** X8: in a store built by calls on a new [KnowledgeBase], every key is
    the topic of its entry followed by an underscore and a stamp of
    fifteen characters. *)
Theorem keys_carry_topic (path : string) (e : Env) (cs : list call)
        (entry_id : string) (en : Entry.t) :
  PyDict.get entry_id
             (KnowledgeBase.entries (self (run_calls cs (KnowledgeBase.new path e))))
  = Some en ->
  exists stamp,
    entry_id = Entry.topic en +:+ "_" +:+ stamp /\ String.length stamp = 15.
Proof.
  intros Hget.
  destruct (keyed_run_calls cs _ (keyed_new path e) _ _ Hget) as [ts ->].
  pose proof (stamp_of_length ts) as Hlen. unfold stamp_of in *.
  cbn [String.append] in *. eexists. split; [reflexivity|].
  cbn [String.length] in Hlen. lia.
Qed.

Lemma keys_carry_topic_witness :
  let w := run_calls [AddEntry "AI Ethics" Sample.ethics] (Sample.fresh Sample.ticking) in
  PyDict.get "AI Ethics_20240101_120000" (KnowledgeBase.entries (self w))
  = Some (Entry.mk "AI Ethics" Sample.ethics
                   "2024-01-01T12:00:00.000002" "2024-01-01T12:00:00.000003")
  /\ exists stamp,
       "AI Ethics_20240101_120000" = "AI Ethics" +:+ "_" +:+ stamp
       /\ String.length stamp = 15.
Proof.
  split; [vm_compute; reflexivity|].
  apply (keys_carry_topic "data" (Sample.env_with Sample.ticking Sample.any_path)
           [AddEntry "AI Ethics" Sample.ethics] "AI Ethics_20240101_120000"
           (Entry.mk "AI Ethics" Sample.ethics
                     "2024-01-01T12:00:00.000002" "2024-01-01T12:00:00.000003")).
  vm_compute. reflexivity.
Defined.

(** X9: once an entry is in such a store, no later call changes its
    topic: whatever follows, the ID is still present and its entry has
    the topic it had (an [add_entry] that lands on the same ID can only
    come from the same topic). *)
Theorem topic_never_changes (path : string) (e : Env) (before after : list call)
        (entry_id : string) (en : Entry.t) :
  PyDict.get entry_id
             (KnowledgeBase.entries (self (run_calls before (KnowledgeBase.new path e))))
  = Some en ->
  exists en',
    PyDict.get entry_id
               (KnowledgeBase.entries
                  (self (run_calls after (run_calls before (KnowledgeBase.new path e)))))
    = Some en'
    /\ Entry.topic en' = Entry.topic en.
Proof.
  pose proof (keyed_run_calls before _ (keyed_new path e)) as Hk.
  generalize dependent (run_calls before (KnowledgeBase.new path e)).
  intros w Hk. revert w Hk en. induction after as [|cl after IH]; intros w Hk en Hget.
  - now exists en.
  - cbn [run_calls fold_left]. fold (run_calls after (run_call cl w)).
    destruct (topic_kept_run_call cl w entry_id en Hk Hget) as (e1 & H1 & Ht1).
    destruct (IH (run_call cl w) (keyed_run_call cl w Hk) e1 H1) as (e2 & H2 & Ht2).
    exists e2. split; [exact H2 | congruence].
Qed.

Lemma topic_never_changes_witness :
  let w := run_calls [AddEntry "ML" Sample.descent] (Sample.fresh Sample.ticking) in
  PyDict.get "ML_20240101_120000" (KnowledgeBase.entries (self w))
  = Some (Entry.mk "ML" Sample.descent
                   "2024-01-01T12:00:00.000002" "2024-01-01T12:00:00.000003")
  /\ exists en',
       PyDict.get "ML_20240101_120000"
                  (KnowledgeBase.entries
                     (self (run_calls [AddEntry "ML" Sample.ethics;
                                       UpdateEntry "ML_20240101_120000" Sample.descent]
                                      w)))
       = Some en'
       /\ Entry.topic en' = "ML".
Proof.
  split; [vm_compute; reflexivity|].
  apply (topic_never_changes "data" (Sample.env_with Sample.ticking Sample.any_path)
           [AddEntry "ML" Sample.descent]
           [AddEntry "ML" Sample.ethics; UpdateEntry "ML_20240101_120000" Sample.descent]
           "ML_20240101_120000"
           (Entry.mk "ML" Sample.descent
                     "2024-01-01T12:00:00.000002" "2024-01-01T12:00:00.000003")).
  vm_compute. reflexivity.
Defined.

(** * Beyond the claims: when IDs differ *)

Section Identifiers.

Lemma compare_same (s : string) : String.compare s s = Eq.
Proof.
  induction s as [|c s IH]; simpl; [reflexivity|].
  now rewrite ascii_compare_refl.
Qed.

(** A zero-filled decimal of a number that fits its width gives the
    number back. *)
Lemma digits_inj (k : nat) (n m : N) :
  (n < 10 ^ N.of_nat k)%N -> (m < 10 ^ N.of_nat k)%N ->
  PyTime.digits k n = PyTime.digits k m -> n = m.
Proof.
  intros Hn Hm Heq. apply N.compare_eq.
  rewrite <- (digits_compare k n m Hn Hm), Heq. apply compare_same.
Qed.

Lemma string_tail_eq (c d : ascii) (x y : string) : String c x = String d y -> x = y.
Proof. now intros [= _ H]. Qed.

(** Stamps of well-formed readings agree only within one second. *)
Lemma stamp_of_inj (a b : datetime) :
  PyTime.valid a = true -> PyTime.valid b = true ->
  stamp_of a = stamp_of b -> same_second a b = true.
Proof.
  intros Ha Hb.
  destruct (valid_widths a Ha) as (Ya & Ma & Da & ha & ma & sa & _).
  destruct (valid_widths b Hb) as (Yb & Mb & Db & hb & mb & sb & _).
  unfold stamp_of. cbn [String.append]. intros H.
  apply string_tail_eq in H.
  apply app_inv_head_length in H as [Hy H]; [|now rewrite !digits_length].
  apply app_inv_head_length in H as [Hm H]; [|now rewrite !digits_length].
  apply app_inv_head_length in H as [Hd H]; [|now rewrite !digits_length].
  apply string_tail_eq in H.
  apply app_inv_head_length in H as [Hh H]; [|now rewrite !digits_length].
  apply app_inv_head_length in H as [Hmi Hs]; [|now rewrite !digits_length].
  apply (digits_inj 4) in Hy; [|assumption..].
  apply (digits_inj 2) in Hm; [|assumption..].
  apply (digits_inj 2) in Hd; [|assumption..].
  apply (digits_inj 2) in Hh; [|assumption..].
  apply (digits_inj 2) in Hmi; [|assumption..].
  apply (digits_inj 2) in Hs; [|assumption..].
  unfold same_second. rewrite Hy, Hm, Hd, Hh, Hmi, Hs, !N.eqb_refl. reflexivity.
Qed.

(** Two IDs are the same string exactly when they come from the same
    topic and the same second. *)
Lemma entry_id_eq_iff (topic1 topic2 : string) (a b : datetime) :
  PyTime.valid a = true -> PyTime.valid b = true ->
  entry_id_of topic1 a = entry_id_of topic2 b
  <-> topic1 = topic2 /\ same_second a b = true.
Proof.
  intros Ha Hb. split.
  - intros H. rewrite !entry_id_stamp in H.
    apply app_inv_tail_length in H as [Ht Hs]; [|now rewrite !stamp_of_length].
    split; [exact Ht | now apply stamp_of_inj].
  - intros [-> Hs]. now apply same_second_id.
Qed.

End Identifiers.

(** X10: two successive [add_entry] calls whose topics differ, or whose
    first clock readings fall in different seconds, get different IDs, and
    afterwards the store holds both entries, each under its own ID. *)
Theorem distinct_adds_coexist (topic1 topic2 : string) (content1 content2 : pyvalue)
        (w : World KnowledgeBase.t) :
  let first_reading := clock (env w) (ticks (env w)) in
  let next_reading := clock (env w) (3 + ticks (env w)) in
  let w1 := snd (KnowledgeBase.add_entry topic1 content1 w) in
  let w2 := snd (KnowledgeBase.add_entry topic2 content2 w1) in
  PyTime.valid first_reading = true -> PyTime.valid next_reading = true ->
  topic1 <> topic2 \/ same_second first_reading next_reading = false ->
  entry_id_of topic1 first_reading <> entry_id_of topic2 next_reading
  /\ (exists e1, PyDict.get (entry_id_of topic1 first_reading)
                            (KnowledgeBase.entries (self w2)) = Some e1
                 /\ Entry.topic e1 = topic1 /\ Entry.content e1 = content1)
  /\ (exists e2, PyDict.get (entry_id_of topic2 next_reading)
                            (KnowledgeBase.entries (self w2)) = Some e2
                 /\ Entry.topic e2 = topic2 /\ Entry.content e2 = content2).
Proof.
  cbv zeta. intros Ha Hb Hdiff.
  set (w1 := snd (KnowledgeBase.add_entry topic1 content1 w)).
  destruct (add_entry_world topic1 content1 w) as (Hs & Hc & Ht & _).
  fold w1 in Hs, Hc, Ht.
  destruct (add_entry_world topic2 content2 w1) as (Hs2 & _).
  assert (Hid2 : added_id topic2 w1
                 = entry_id_of topic2 (clock (env w) (3 + ticks (env w)))).
  { unfold added_id. now rewrite Hc, Ht. }
  assert (Hne : entry_id_of topic1 (clock (env w) (ticks (env w)))
                <> entry_id_of topic2 (clock (env w) (3 + ticks (env w)))).
  { intros Heq. apply entry_id_eq_iff in Heq as [Htop Hsame]; [|assumption..].
    destruct Hdiff as [Hd|Hd]; [now apply Hd | congruence]. }
  split; [exact Hne|].
  rewrite Hs2. unfold added_store at 1 2. cbn [KnowledgeBase.entries].
  rewrite Hid2, Hs. unfold added_store. cbn [KnowledgeBase.entries]. split.
  - rewrite get_set_ne by congruence. unfold added_id at 1.
    rewrite get_set_eq. eexists. repeat split.
  - rewrite get_set_eq. eexists. repeat split.
Qed.

Lemma distinct_adds_coexist_witness :
  let w := Sample.fresh Sample.ticking in
  let w2 := snd (KnowledgeBase.add_entry "ML" Sample.descent
                   (snd (KnowledgeBase.add_entry "AI Ethics" Sample.ethics w))) in
  (PyTime.valid (Sample.ticking 0) = true /\ PyTime.valid (Sample.ticking 3) = true
   /\ "AI Ethics" <> "ML")
  /\ "AI Ethics_20240101_120000" <> "ML_20240101_120000"
  /\ (exists e1, PyDict.get "AI Ethics_20240101_120000"
                            (KnowledgeBase.entries (self w2)) = Some e1
                 /\ Entry.topic e1 = "AI Ethics" /\ Entry.content e1 = Sample.ethics)
  /\ (exists e2, PyDict.get "ML_20240101_120000"
                            (KnowledgeBase.entries (self w2)) = Some e2
                 /\ Entry.topic e2 = "ML" /\ Entry.content e2 = Sample.descent).
Proof.
  split; [split; [reflexivity | split; [reflexivity | discriminate]]|].
  apply (distinct_adds_coexist "AI Ethics" "ML" Sample.ethics Sample.descent
           (Sample.fresh Sample.ticking)).
  - reflexivity.
  - reflexivity.
  - left. discriminate.
Defined.

(** * Beyond the claims: more about [search] and [add_entry] *)

Section SearchFacts.

Lemma lower_char_idem (c : ascii) :
  PyStr.lower_char (PyStr.lower_char c) = PyStr.lower_char c.
Proof. destruct c as [[] [] [] [] [] [] [] []]; vm_compute; reflexivity. Qed.

Lemma lower_idem (s : string) : PyStr.lower (PyStr.lower s) = PyStr.lower s.
Proof.
  induction s as [|c s IH]; simpl; [reflexivity|].
  now rewrite lower_char_idem, IH.
Qed.

End SearchFacts.

(** X11: in a store built by calls on a new [KnowledgeBase], every record
    [search] returns can be fetched: [get_entry] on its [id] returns an
    entry with exactly the record's fields, and that entry matches the
    query. *)
Theorem search_hits_fetchable (path : string) (e : Env) (cs : list call)
        (query : string) :
  let w := run_calls cs (KnowledgeBase.new path e) in
  exists results,
    KnowledgeBase.search query w = (Return results, w)
    /\ Forall (fun r =>
                 exists en,
                   KnowledgeBase.get_entry (SearchResult.id r) w = (Return (Some en), w)
                   /\ r = SearchResult.of_entry (SearchResult.id r) en
                   /\ KnowledgeBase.matches query en = true)
              results.
Proof.
  cbv zeta. eexists. split; [apply search_run|].
  apply List.Forall_forall. intros r Hin.
  apply in_map_iff in Hin as ([k en] & <- & Hin).
  apply filter_In in Hin as [Hin Hm]. cbn [fst snd] in *.
  exists en. rewrite get_entry_run. cbn [SearchResult.of_entry SearchResult.id].
  split; [|split; [reflexivity | exact Hm]].
  rewrite (get_in_distinct k en); [reflexivity | | exact Hin].
  apply keys_distinct_run_calls. constructor.
Qed.

(** X12: [search] does not look at the case of the query: the lowercased
    query returns exactly what the query itself returns. *)
Theorem search_ignores_query_case (query : string) (w : World KnowledgeBase.t) :
  KnowledgeBase.search (PyStr.lower query) w = KnowledgeBase.search query w.
Proof.
  rewrite !search_run. unfold KnowledgeBase.matches. now rewrite lower_idem.
Qed.

(** X14: [add_entry] assigns one key of the store: whether it returns
    or raises, the entry under every other ID is as before, and so is
    [storage_path]. *)
Theorem add_entry_frame (topic : string) (content : pyvalue)
        (w : World KnowledgeBase.t) :
  let w' := snd (KnowledgeBase.add_entry topic content w) in
  (forall other, other <> added_id topic w ->
     PyDict.get other (KnowledgeBase.entries (self w'))
     = PyDict.get other (KnowledgeBase.entries (self w)))
  /\ KnowledgeBase.storage_path (self w') = KnowledgeBase.storage_path (self w).
Proof.
  cbv zeta. destruct (add_entry_world topic content w) as (-> & _).
  unfold added_store. cbn [KnowledgeBase.entries KnowledgeBase.storage_path].
  split; [|reflexivity]. intros other Hne. apply get_set_ne. congruence.
Qed.

(** X15: a topic that starts with a slash takes the file out of the
    storage directory: [os.path.join] drops [storage_path] before an
    absolute name, so a returning [add_entry] has written the entry at
    the ID itself followed by [.json]. *)
Theorem absolute_topic_leaves_storage (topic : string) (content : pyvalue)
        (w w' : World KnowledgeBase.t) (entry_id : string) :
  PyStr.startswith "/" topic = true ->
  KnowledgeBase.add_entry topic content w = (Return entry_id, w') ->
  entry_path (self w) entry_id = entry_id +:+ ".json"
  /\ files (env w') !! (entry_id +:+ ".json")
     = Some (Json (Entry.to_value (added_entry topic content w))).
Proof.
  intros Habs. rewrite add_entry_run.
  assert (Hp : entry_path (self w) (added_id topic w) = added_id topic w +:+ ".json").
  { unfold entry_path, path_join, added_id. rewrite entry_id_stamp.
    destruct topic as [|c topic]; [discriminate Habs|].
    cbn [PyStr.startswith String.append] in *.
    destruct (Ascii.eqb "/" c); [reflexivity | discriminate Habs]. }
  destruct (writable (env w) (entry_path (self w) (added_id topic w))); [|discriminate].
  intros [= <- <-]. split; [exact Hp|].
  cbn [env files]. rewrite Hp. apply lookup_insert_eq.
Qed.

Lemma absolute_topic_leaves_storage_witness :
  let w := Sample.fresh Sample.ticking in
  let w' := snd (KnowledgeBase.add_entry "/tmp/x" Sample.descent w) in
  (PyStr.startswith "/" "/tmp/x" = true
   /\ KnowledgeBase.add_entry "/tmp/x" Sample.descent w
      = (Return "/tmp/x_20240101_120000", w'))
  /\ entry_path (self w) "/tmp/x_20240101_120000" = "/tmp/x_20240101_120000.json"
  /\ files (env w') !! "/tmp/x_20240101_120000.json"
     = Some (Json (Entry.to_value (added_entry "/tmp/x" Sample.descent w))).
Proof.
  split; [split; vm_compute; reflexivity|].
  apply (absolute_topic_leaves_storage "/tmp/x" Sample.descent
           (Sample.fresh Sample.ticking)
           (snd (KnowledgeBase.add_entry "/tmp/x" Sample.descent
                   (Sample.fresh Sample.ticking)))).
  - reflexivity.
  - vm_compute. reflexivity.
Defined.

(** * Beyond the claims: the research tracker and the analyzer *)

Section TrackerFacts.

Implicit Types (w : World AIResearcher.t) (topic : string).

Lemma get_map_info (k : string) (paper_info : list (string * pyvalue)) :
  PyDict.get k (map (fun kv => (fst kv, AIResearcher.Info (snd kv))) paper_info)
  = AIResearcher.Info <$> PyDict.get k paper_info.
Proof.
  induction paper_info as [|[k0 v0] l IH]; simpl; [reflexivity|].
  destruct (String.eqb k k0); [reflexivity | exact IH].
Qed.

(** What one tracker call leaves alone. *)
Lemma run_tracker_call_keeps (c : tracker_call) w :
  let w' := snd (run_tracker_call c w) in
  AIResearcher.start_time (self w') = AIResearcher.start_time (self w)
  /\ AIResearcher.knowledge_base (self w') = AIResearcher.knowledge_base (self w)
  /\ files (env w') = files (env w)
  /\ (forall name, is_Some (AIResearcher.research_topics (self w) !! name) ->
        is_Some (AIResearcher.research_topics (self w') !! name)).
Proof.
  cbv zeta. destruct c as [topic description | topic paper_info | topic note];
    cbn [run_tracker_call].
  - rewrite add_research_topic_run.
    cbn [snd self env files AIResearcher.start_time AIResearcher.knowledge_base
           AIResearcher.research_topics].
    repeat split. intros name Hs. rewrite lookup_insert_is_Some. 
    destruct (decide (topic = name)); [now left | now right].
  - destruct (AIResearcher.research_topics (self w) !! topic) as [tp|] eqn:Hget.
    + rewrite (add_paper_present _ _ _ _ Hget).
      cbn [snd self env files AIResearcher.start_time AIResearcher.knowledge_base
             AIResearcher.research_topics].
      repeat split. intros name Hs. rewrite lookup_insert_is_Some.
      destruct (decide (topic = name)); [now left | now right].
    + rewrite (add_paper_absent _ _ _ Hget). now repeat split.
  - destruct (AIResearcher.research_topics (self w) !! topic) as [tp|] eqn:Hget.
    + rewrite (add_note_present _ _ _ _ Hget).
      cbn [snd self env files AIResearcher.start_time AIResearcher.knowledge_base
             AIResearcher.research_topics].
      repeat split. intros name Hs. rewrite lookup_insert_is_Some.
      destruct (decide (topic = name)); [now left | now right].
    + rewrite (add_note_absent _ _ _ Hget). now repeat split.
Qed.

End TrackerFacts.

(** X16: the record [add_paper] appends carries the clock reading of the
    call under ["added_at"], also when [paper_info] brings an ["added_at"]
    of its own, and carries every other key of [paper_info] with its
    value. *)
Theorem add_paper_stamps_record (topic : string) (paper_info : list (string * pyvalue))
        (w : World AIResearcher.t) (tp : AIResearcher.Topic) :
  AIResearcher.research_topics (self w) !! topic = Some tp ->
  exists tp' record,
    AIResearcher.research_topics
      (self (snd (AIResearcher.add_paper topic paper_info w))) !! topic = Some tp'
    /\ AIResearcher.papers tp' = AIResearcher.papers tp ++ [record]
    /\ PyDict.get "added_at" record
       = Some (AIResearcher.Stamp (clock (env w) (ticks (env w))))
    /\ (forall k, k <> "added_at" ->
          PyDict.get k record = AIResearcher.Info <$> PyDict.get k paper_info).
Proof.
  intros Hget. rewrite (add_paper_present _ _ _ _ Hget).
  cbn [snd self AIResearcher.research_topics]. rewrite lookup_insert_eq.
  eexists _, _. split; [reflexivity|]. cbn [AIResearcher.papers].
  split; [reflexivity|]. unfold AIResearcher.make_paper. split.
  - apply get_set_eq.
  - intros k Hne. rewrite get_set_ne by congruence. apply get_map_info.
Qed.

Lemma add_paper_stamps_record_witness :
  let w := Sample.tracker Sample.ticking in
  let info := [("title", PStr "Attention"); ("added_at", PStr "never")] in
  AIResearcher.research_topics (self w) !! "AI Ethics"
  = Some (AIResearcher.mkTopic
            "Research on ethical considerations in AI development and deployment"
            (Sample.noon 2) [] [])
  /\ exists tp' record,
       AIResearcher.research_topics
         (self (snd (AIResearcher.add_paper "AI Ethics" info w))) !! "AI Ethics"
       = Some tp'
       /\ AIResearcher.papers tp' = [] ++ [record]
       /\ PyDict.get "added_at" record
          = Some (AIResearcher.Stamp (clock (env w) (ticks (env w))))
       /\ (forall k, k <> "added_at" ->
             PyDict.get k record = AIResearcher.Info <$> PyDict.get k info).
Proof.
  split; [vm_compute; reflexivity|].
  apply (add_paper_stamps_record "AI Ethics"
           [("title", PStr "Attention"); ("added_at", PStr "never")]
           (Sample.tracker Sample.ticking)
           (AIResearcher.mkTopic
              "Research on ethical considerations in AI development and deployment"
              (Sample.noon 2) [] [])).
  vm_compute. reflexivity.
Defined.

(** X17: right after [add_research_topic], [add_paper] and [add_note] on
    that topic cannot raise, and they leave the topic with the given
    description, exactly one paper record and exactly one note. *)
Theorem fresh_topic_accepts (topic description note : string)
        (paper_info : list (string * pyvalue)) (w : World AIResearcher.t) :
  let n := ticks (env w) in
  let w1 := snd (AIResearcher.add_research_topic topic description w) in
  let rp := AIResearcher.add_paper topic paper_info w1 in
  let rn := AIResearcher.add_note topic note (snd rp) in
  fst rp = Return tt
  /\ fst rn = Return tt
  /\ AIResearcher.research_topics (self (snd rn)) !! topic
     = Some (AIResearcher.mkTopic
               description (clock (env w) n)
               [AIResearcher.make_paper paper_info (clock (env w) (1 + n))]
               [AIResearcher.mkNote note (clock (env w) (2 + n))]).
Proof.
  cbv zeta. rewrite add_research_topic_run.
  erewrite add_paper_present
    by (cbn [self AIResearcher.research_topics]; apply lookup_insert_eq).
  cbn [fst snd self env clock ticks AIResearcher.research_topics
         AIResearcher.start_time AIResearcher.knowledge_base AIResearcher.description
         AIResearcher.created_at AIResearcher.papers AIResearcher.notes].
  erewrite add_note_present
    by (cbn [self AIResearcher.research_topics]; apply lookup_insert_eq).
  cbn [fst snd self env clock ticks AIResearcher.research_topics
         AIResearcher.description AIResearcher.created_at AIResearcher.papers
         AIResearcher.notes].
  split; [reflexivity|]. split; [reflexivity|].
  rewrite lookup_insert_eq. reflexivity.
Qed.

(** X18: no sequence of tracker calls, raising or not, touches
    [start_time], the tracker's own [knowledge_base] dict or any file, and
    none stops tracking a topic: a name that was tracked stays tracked. *)
Theorem tracker_keeps (cs : list tracker_call) (w : World AIResearcher.t) :
  let w' := run_tracker_calls cs w in
  AIResearcher.start_time (self w') = AIResearcher.start_time (self w)
  /\ AIResearcher.knowledge_base (self w') = AIResearcher.knowledge_base (self w)
  /\ files (env w') = files (env w)
  /\ (forall name, is_Some (AIResearcher.research_topics (self w) !! name) ->
        is_Some (AIResearcher.research_topics (self w') !! name)).
Proof.
  cbv zeta. revert w; induction cs as [|c cs IH]; intros w.
  - now repeat split.
  - cbn [run_tracker_calls fold_left].
    fold (run_tracker_calls cs (snd (run_tracker_call c w))).
    destruct (IH (snd (run_tracker_call c w))) as (H1 & H2 & H3 & H4).
    destruct (run_tracker_call_keeps c w) as (K1 & K2 & K3 & K4).
    repeat split; try congruence. intros name Hs. now apply H4, K4.
Qed.

(** X19: [main] never raises, whatever world it starts in: it ends with
    exactly one tracked topic, "AI Ethics", with no papers and no notes,
    [start_time] set to the first clock reading, and three log records
    added. *)
Theorem main_outcome (w : World AIResearcher.t) :
  let r := AIResearcher.main w in
  let n := ticks (env w) in
  fst r = Return tt
  /\ AIResearcher.start_time (self (snd r)) = clock (env w) n
  /\ AIResearcher.research_topics (self (snd r))
     = {[ "AI Ethics" :=
            AIResearcher.mkTopic
              "Research on ethical considerations in AI development and deployment"
              (clock (env w) (1 + n)) [] [] ]}
  /\ log (env (snd r))
     = log (env w)
       ++ ["AI Researcher initialized at " +:+ PyTime.str (clock (env w) n);
           "Added new research topic: AI Ethics";
           "AI Researcher application started successfully"].
Proof.
  destruct w as [r0 [c n fs ok lg]]. cbv zeta.
  unfold AIResearcher.main, AIResearcher.init, AIResearcher.add_research_topic,
    AIResearcher.set_topic.
  run_effects. rewrite <- !app_assoc. repeat split.
Qed.

(** X20: the four analyzer methods keep no result: each leaves
    [analyzed_papers] and the files as they were and adds exactly one log
    record; only [analyze_paper] reads the clock, once, and its
    [timestamp] is that reading. *)
Theorem analyzer_keeps_nothing (paper_content : string) (max_length : option Z)
        (w : World PaperAnalyzer.t) :
  let wa := snd (PaperAnalyzer.analyze_paper paper_content w) in
  let wc := snd (PaperAnalyzer.extract_citations paper_content w) in
  let ws := snd (PaperAnalyzer.summarize_paper paper_content max_length w) in
  let wk := snd (PaperAnalyzer.identify_key_concepts paper_content w) in
  (self wa = self w /\ self wc = self w /\ self ws = self w /\ self wk = self w)
  /\ (files (env wa) = files (env w) /\ files (env wc) = files (env w)
      /\ files (env ws) = files (env w) /\ files (env wk) = files (env w))
  /\ (log (env wa) = log (env w) ++ ["Paper analysis completed"]
      /\ log (env wc) = log (env w) ++ ["Extracted 0 citations"]
      /\ log (env ws) = log (env w) ++ ["Paper summary generated"]
      /\ log (env wk) = log (env w) ++ ["Identified 0 key concepts"])
  /\ (ticks (env wa) = 1 + ticks (env w) /\ ticks (env wc) = ticks (env w)
      /\ ticks (env ws) = ticks (env w) /\ ticks (env wk) = ticks (env w))
  /\ fst (PaperAnalyzer.analyze_paper paper_content w)
     = Return (PaperAnalyzer.mkAnalysis (clock (env w) (ticks (env w)))
                                        [] EmptyString EmptyString [] []).
Proof.
  destruct w as [o [c n fs ok lg]]. cbv zeta. repeat split.
Qed.

(** * Beyond the claims: how calls of the knowledge base compose *)

Lemma set_absent {V} (k : string) (v : V) (d : list (string * V)) :
  PyDict.mem k d = false -> PyDict.set k v d = d ++ [(k, v)].
Proof.
  unfold PyDict.mem. induction d as [|[k0 v0] d IH]; simpl; [reflexivity|].
  destruct (String.eqb k k0); [discriminate|]. intros H. now rewrite IH.
Qed.


(** X22: an entry added under a new ID comes last in every [search]:
    the results are those from before the call, followed by the record of
    the new entry if its content matches the query. *)
Theorem search_after_add (topic query : string) (content : pyvalue)
        (w : World KnowledgeBase.t) :
  PyDict.mem (added_id topic w) (KnowledgeBase.entries (self w)) = false ->
  let w' := snd (KnowledgeBase.add_entry topic content w) in
  exists earlier,
    fst (KnowledgeBase.search query w) = Return earlier
    /\ fst (KnowledgeBase.search query w')
       = Return (earlier
                 ++ if PyStr.contains (PyStr.lower query)
                                      (PyStr.lower (PyVal.str content))
                    then [SearchResult.of_entry (added_id topic w)
                                                (added_entry topic content w)]
                    else []).
Proof.
  intros Hnew. cbv zeta. eexists. rewrite !search_run. cbn [fst snd].
  split; [reflexivity|].
  destruct (add_entry_world topic content w) as (-> & _).
  unfold added_store. cbn [KnowledgeBase.entries].
  rewrite (set_absent _ _ _ Hnew), List.filter_app, map_app.
  cbn [List.filter snd].
  change (KnowledgeBase.matches query (added_entry topic content w))
    with (PyStr.contains (PyStr.lower query) (PyStr.lower (PyVal.str content))).
  destruct (PyStr.contains (PyStr.lower query) (PyStr.lower (PyVal.str content)));
    reflexivity.
Qed.

Lemma search_after_add_witness :
  let w := snd (KnowledgeBase.add_entry "AI Ethics" Sample.ethics
                  (Sample.fresh Sample.fall_back)) in
  let w' := snd (KnowledgeBase.add_entry "ML" Sample.descent w) in
  PyDict.mem (added_id "ML" w) (KnowledgeBase.entries (self w)) = false
  /\ exists earlier,
       fst (KnowledgeBase.search "e" w) = Return earlier
       /\ fst (KnowledgeBase.search "e" w')
          = Return (earlier
                    ++ if PyStr.contains (PyStr.lower "e")
                                         (PyStr.lower (PyVal.str Sample.descent))
                       then [SearchResult.of_entry (added_id "ML" w)
                                                   (added_entry "ML" Sample.descent w)]
                       else []).
Proof.
  split; [vm_compute; reflexivity|].
  apply (search_after_add "ML" "e" Sample.descent
           (snd (KnowledgeBase.add_entry "AI Ethics" Sample.ethics
                   (Sample.fresh Sample.fall_back)))).
  vm_compute. reflexivity.
Defined.
